(** * The analysis form's submit handler (web_interface/static/js/main.js)

    A shallow embedding of the browser-side script: the values it handles
    (JavaScript strings, numbers, values parsed from JSON), the pieces of the
    language it relies on (truthiness, property reads, string conversion,
    [trim], [toFixed]), the page elements it reads and writes, and the handler
    itself as a computation over the page that may throw. *)

From Stdlib Require Import List ZArith NArith QArith Qround Qpower Lia Lqa Bool.
From Stdlib Require Ascii String DecimalString DecimalN.
Import Ascii.AsciiSyntax String.StringSyntax.
Delimit Scope string_scope with string.
From Stdlib Require Import Floats.SpecFloat.
Import ListNotations.

Local Open Scope N_scope.

(** ** JavaScript strings

    A string is a sequence of 16-bit code units. *)

Module JSString.

Definition jsstring := list N.

(** A literal of the source, all of whose characters are ASCII. *)
Definition lit (s : String.string) : jsstring :=
  map Ascii.N_of_ascii (String.list_ascii_of_string s).
Arguments lit s%_string.

Definition eqb (a b : jsstring) : bool :=
  if list_eq_dec N.eq_dec a b then true else false.

(** WhiteSpace and LineTerminator code points of the language: what
    [String.prototype.trim] strips. *)
Definition is_white_space (c : N) : bool :=
  (c =? 0x9) || (c =? 0xA) || (c =? 0xB) || (c =? 0xC) || (c =? 0xD)
  || (c =? 0x20) || (c =? 0xA0) || (c =? 0x1680)
  || ((0x2000 <=? c) && (c <=? 0x200A))
  || (c =? 0x2028) || (c =? 0x2029) || (c =? 0x202F) || (c =? 0x205F)
  || (c =? 0x3000) || (c =? 0xFEFF).

Fixpoint trimStart (s : jsstring) : jsstring :=
  match s with
  | c :: s' => if is_white_space c then trimStart s' else s
  | [] => []
  end.

Definition trimEnd (s : jsstring) : jsstring := rev (trimStart (rev s)).

Definition trim (s : jsstring) : jsstring := trimEnd (trimStart s).

(** The decimal digits of a natural number. *)
Definition decimal (n : N) : jsstring :=
  lit (DecimalString.NilZero.string_of_uint (N.to_uint n)).

Definition dquote : jsstring := [0x22].

End JSString.
Import JSString.

(** ** JavaScript numbers

    A number is an IEEE 754 binary64 value: [S754_finite s m e] is
    [(-1)^s * m * 2^e]. *)

Module Number.

Local Open Scope Q_scope.

Definition number := spec_float.

Definition prec : Z := 53.
Definition emax : Z := 1024.

Definition pow (b : Z) (e : Z) : Q := Qpower (inject_Z b) e.

(** The exact value of [m * 2^e]. *)
Definition magnitude (m : positive) (e : Z) : Q :=
  inject_Z (Zpos m) * pow 2 e.

(** The representation of a value with a 53-bit significand. *)
Definition canonical (x : number) : number :=
  match x with
  | S754_finite s m e =>
      binary_normalize prec emax (if s then Zneg m else Zpos m) e s
  | _ => x
  end.

(** ToBoolean on a number: [+0], [-0] and [NaN] are falsy. *)
Definition truthy (x : number) : bool :=
  match x with
  | S754_zero _ | S754_nan => false
  | S754_infinity _ | S754_finite _ _ _ => true
  end.

(** *** Number::toString, radix 10 *)

(** The [n] with [10^(n-1) <= x < 10^n], searched downwards from [n]. *)
Fixpoint decimal_exponent (fuel : nat) (n : Z) (x : Q) : Z :=
  match fuel with
  | O => n
  | S fuel' =>
      if Qle_bool (pow 10 (n - 1)) x then n
      else decimal_exponent fuel' (n - 1) x
  end.

(** The reals that round to [m * 2^e] (to nearest, ties to even) form the
    interval from [lo] to [hi], closed when [m] is even. *)
Definition rounds_to (m : positive) (e : Z) (v : Q) : bool :=
  let x := magnitude m e in
  let hi := x + pow 2 (e - 1) in
  let lo := if (Zpos m =? 2 ^ (prec - 1))%Z && (- 1074 <? e)%Z
            then x - pow 2 (e - 2) else x - pow 2 (e - 1) in
  match m with
  | xO _ => Qle_bool lo v && Qle_bool v hi
  | _ => negb (Qle_bool v lo) && negb (Qle_bool hi v)
  end.

(** The decimal [s * 10^p] with [k] digits that rounds to [m * 2^e] and is
    closest to it, if there is one. *)
Definition candidate (m : positive) (e : Z) (nx : Z) (k : Z) : option (Z * Z) :=
  let x := magnitude m e in
  let p := (nx - k)%Z in
  let unit := pow 10 p in
  let f := Qfloor (x / unit) in
  let below := inject_Z f * unit in
  let above := inject_Z (f + 1) * unit in
  let ok_below := rounds_to m e below in
  let ok_above := rounds_to m e above in
  match ok_below, ok_above with
  | false, false => None
  | true, false => Some (f, p)
  | false, true => Some ((f + 1)%Z, p)
  | true, true =>
      match Qcompare (x - below) (above - x) with
      | Lt => Some (f, p)
      | Gt => Some ((f + 1)%Z, p)
      | Eq => Some (if Z.even f then f else (f + 1)%Z, p)
      end
  end.

(** The least number of digits [k] for which there is a candidate. *)
Fixpoint shortest (fuel : nat) (m : positive) (e : Z) (nx : Z) (k : Z) : Z * Z :=
  match fuel with
  | O => (Zpos m, e)
  | S fuel' =>
      match candidate m e nx k with
      | Some sp => sp
      | None => shortest fuel' m e nx (k + 1)
      end
  end.

Fixpoint strip_zeros (fuel : nat) (s p : Z) : Z * Z :=
  match fuel with
  | O => (s, p)
  | S fuel' =>
      if (s mod 10 =? 0)%Z then strip_zeros fuel' (s / 10)%Z (p + 1)%Z
      else (s, p)
  end.

Definition zeros (n : Z) : jsstring := repeat 0x30%N (Z.to_nat n).

Definition exponent_part (n : Z) : jsstring :=
  lit "e" ++ (if (n - 1 <? 0)%Z then lit "-" else lit "+")
          ++ decimal (Z.to_N (Z.abs (n - 1))).

(** The digits [ds] of [s] laid out around the decimal point for
    [s * 10^(n - k)], [k] being the number of digits. *)
Definition layout (ds : jsstring) (n : Z) : jsstring :=
  let k := Z.of_nat (length ds) in
  if (k <=? n)%Z && (n <=? 21)%Z then ds ++ zeros (n - k)
  else if (0 <? n)%Z && (n <=? 21)%Z then
    firstn (Z.to_nat n) ds ++ lit "." ++ skipn (Z.to_nat n) ds
  else if (- 6 <? n)%Z && (n <=? 0)%Z then
    lit "0." ++ zeros (- n) ++ ds
  else if (k =? 1)%Z then ds ++ exponent_part n
  else firstn 1 ds ++ lit "." ++ skipn 1 ds ++ exponent_part n.

Definition to_string_finite (m : positive) (e : Z) : jsstring :=
  let nx := decimal_exponent 640 310 (magnitude m e) in
  let '(s0, p0) := shortest 17 m e nx 1 in
  let '(s, p) := strip_zeros 17 s0 p0 in
  let ds := decimal (Z.to_N s) in
  layout ds (p + Z.of_nat (length ds)).

Definition to_string (x : number) : jsstring :=
  match canonical x with
  | S754_nan => lit "NaN"
  | S754_zero _ => lit "0"
  | S754_infinity s => (if s then lit "-" else []) ++ lit "Infinity"
  | S754_finite s m e => (if s then lit "-" else []) ++ to_string_finite m e
  end.

(** *** Number.prototype.toFixed

    [toFixed x f] for a number of fraction digits [f] between 0 and 100. *)

(** The integer [n] for which [n / 10^f] is closest to [m * 2^e], the
    larger one of two. *)
Definition fixed_integer (m : positive) (e : Z) (f : nat) : Z :=
  Qfloor (magnitude m e * pow 10 (Z.of_nat f) + (1 # 2)).

(** The digits of [n] with the point before the last [f] of them. *)
Definition fixed_layout (n : Z) (f : nat) : jsstring :=
  let ds := if (n =? 0)%Z then lit "0" else decimal (Z.to_N n) in
  match f with
  | O => ds
  | _ =>
      let ds' := if (length ds <=? f)%nat
                 then repeat 0x30%N (f + 1 - length ds)%nat ++ ds else ds in
      let k := length ds' in
      firstn (k - f)%nat ds' ++ lit "." ++ skipn (k - f)%nat ds'
  end.

Definition toFixed (x : number) (f : nat) : jsstring :=
  match x with
  | S754_nan | S754_infinity _ => to_string x
  | S754_zero _ => fixed_layout 0 f
  | S754_finite s m e =>
      if Qle_bool (pow 10 21) (magnitude m e) then to_string x
      else (if s then lit "-" else []) ++ fixed_layout (fixed_integer m e f) f
  end.

End Number.

(** ** Computations that may throw *)

Inductive exn : Type :=
| Error (message : jsstring)     (* [new Error(message)] *)
| TypeError                      (* raised by the language and by [fetch] *)
| SyntaxError                    (* raised by the JSON parser *)
| DOMException (name : jsstring).

Inductive completion (A : Type) : Type :=
| Normal (a : A)
| Throw (e : exn).
Arguments Normal {A} a.
Arguments Throw {A} e.

Class Monad (M : Type -> Type) : Type := {
  ret : forall {A}, A -> M A;
  bind : forall {A B}, M A -> (A -> M B) -> M B
}.

Declare Scope js_scope.
Delimit Scope js_scope with js.
Notation "x <- c1 ;; c2" := (bind c1 (fun x => c2))
  (at level 100, c1 at next level, right associativity) : js_scope.
Notation "c1 ;; c2" := (bind c1 (fun _ => c2))
  (at level 100, right associativity) : js_scope.
Local Open Scope js_scope.

#[export] Instance completion_monad : Monad completion := {
  ret := fun A a => Normal a;
  bind := fun A B c k => match c with Normal a => k a | Throw e => Throw e end
}.

(** ** Values

    The values the handler meets: what [JSON.parse] builds, and [undefined]
    for a property that is not there. An object is the list of its own
    properties. *)

Module JS.

#[warnings="-register-all"] Inductive value : Type :=
| Undefined
| Null
| Bool (b : bool)
| Num (x : Number.number)
| Str (s : jsstring)
| Arr (elements : list value)
| Obj (properties : list (jsstring * value)).

(** ToBoolean. *)
Definition truthy (v : value) : bool :=
  match v with
  | Undefined | Null => false
  | Bool b => b
  | Num x => Number.truthy x
  | Str s => match s with [] => false | _ => true end
  | Arr _ | Obj _ => true
  end.

Fixpoint own (properties : list (jsstring * value)) (k : jsstring) : option value :=
  match properties with
  | [] => None
  | (k', v) :: rest => if JSString.eqb k' k then Some v else own rest k
  end.

(** [v.k], for a name [k] that no built-in prototype defines: reading a
    property of [undefined] or [null] throws, an object answers with its own
    property, anything else with [undefined]. *)
Definition get (v : value) (k : jsstring) : completion value :=
  match v with
  | Undefined | Null => Throw TypeError
  | Obj properties =>
      Normal (match own properties k with Some x => x | None => Undefined end)
  | _ => Normal Undefined
  end.

(** [v.k1.k2...]. *)
Fixpoint path (v : value) (ks : list jsstring) : completion value :=
  match ks with
  | [] => Normal v
  | k :: ks' => v' <- get v k ;; path v' ks'
  end.

(** ToString. An array joins its elements with commas, [undefined] and
    [null] elements giving nothing. An object is ["[object Object]"] unless
    it has an own property [toString]: that value, coming from JSON, is not
    callable, [valueOf] does not give a primitive either, and the
    conversion throws. *)
Fixpoint to_string (v : value) : completion jsstring :=
  match v with
  | Undefined => Normal (lit "undefined")
  | Null => Normal (lit "null")
  | Bool b => Normal (if b then lit "true" else lit "false")
  | Num x => Normal (Number.to_string x)
  | Str s => Normal s
  | Arr elements =>
      (fix join (l : list value) : completion jsstring :=
         match l with
         | [] => Normal []
         | x :: rest =>
             s <- match x with
                  | Undefined | Null => Normal []
                  | _ => to_string x
                  end ;;
             match rest with
             | [] => Normal s
             | _ => t <- join rest ;; Normal (s ++ lit "," ++ t)
             end
         end) elements
  | Obj properties =>
      match own properties (lit "toString") with
      | Some _ => Throw TypeError
      | None => Normal (lit "[object Object]")
      end
  end.

(** [v.toFixed(digits)]: only a number has the method. *)
Definition call_toFixed (v : value) (digits : nat) : completion jsstring :=
  match v with
  | Num x => Normal (Number.toFixed x digits)
  | _ => Throw TypeError
  end.

End JS.
Import JS.

(** ** The page and the network

    The elements the script looks up, by the part of each it reads or writes.
    They are taken to exist: the markup is not part of the script. *)

Record Page : Type := {
  text_value : jsstring;                    (* #text, .value *)
  sourceLang_value : jsstring;              (* #sourceLang, .value *)
  targetLang_value : jsstring;              (* #targetLang, .value *)
  submit_disabled : bool;                   (* button[type="submit"], .disabled *)
  error_display : jsstring;                 (* #error, .style.display *)
  errorMessage_textContent : jsstring;      (* #errorMessage, .textContent *)
  results_display : jsstring;               (* #results, .style.display *)
  sentimentResult_innerHTML : jsstring;     (* #sentimentResult, .innerHTML *)
  translationResult_innerHTML : jsstring;   (* #translationResult, .innerHTML *)
  chatResult_innerHTML : jsstring           (* #chatResult, .innerHTML *)
}.

(** The object given to [JSON.stringify] for the request body. *)
Record Payload : Type := {
  text : jsstring;
  source_lang : jsstring;
  target_lang : jsstring
}.

Record Request : Type := {
  url : jsstring;
  method : jsstring;
  content_type : jsstring;
  body : Payload
}.

(** A response: its status, and what [response.json()] settles to. *)
Record Response : Type := {
  status : N;
  json : completion value
}.

Definition ok (r : Response) : bool := (200 <=? status r) && (status r <=? 299).

(** What [fetch] settles to for a request: a response, or a rejection. *)
Definition Network : Type := Request -> completion Response.

(** What the handler does besides writing to the page, in order. *)
Inductive event : Type :=
| PreventDefault
| Fetch (r : Request)
| ReadJson
| ConsoleError (label : jsstring) (e : exn)
| ConsoleLog (label : jsstring) (v : value).

Record World : Type := {
  page : Page;
  events : list event
}.

(** ** Actions: computations over the page that may throw *)

Definition Action (A : Type) : Type := World -> completion A * World.

#[export] Instance action_monad : Monad Action := {
  ret := fun A a w => (Normal a, w);
  bind := fun A B c k w =>
    match c w with
    | (Normal a, w') => k a w'
    | (Throw e, w') => (Throw e, w')
    end
}.

Definition throw {A : Type} (e : exn) : Action A := fun w => (Throw e, w).

(** An expression without effect, evaluated inside an action. *)
Definition eval {A : Type} (c : completion A) : Action A := fun w => (c, w).

Definition read {A : Type} (f : Page -> A) : Action A :=
  fun w => (Normal (f (page w)), w).

Definition write (f : Page -> Page) : Action unit :=
  fun w => (Normal tt, {| page := f (page w); events := events w |}).

Definition emit (ev : event) : Action unit :=
  fun w => (Normal tt, {| page := page w; events := events w ++ [ev] |}).

(** [try { body } catch (error) { handler error } finally { final }]. *)
Definition try_catch_finally (body : Action unit) (handler : exn -> Action unit)
    (final : Action unit) : Action unit :=
  fun w =>
    let '(r, w1) := match body w with
                    | (Normal _, w1) => (Normal tt, w1)
                    | (Throw e, w1) => handler e w1
                    end in
    match final w1 with
    | (Normal _, w2) => (r, w2)
    | (Throw e, w2) => (Throw e, w2)
    end.

(** *** Writes to the page *)

Definition set_submit_disabled (b : bool) (p : Page) : Page :=
  {| text_value := text_value p; sourceLang_value := sourceLang_value p;
     targetLang_value := targetLang_value p; submit_disabled := b;
     error_display := error_display p;
     errorMessage_textContent := errorMessage_textContent p;
     results_display := results_display p;
     sentimentResult_innerHTML := sentimentResult_innerHTML p;
     translationResult_innerHTML := translationResult_innerHTML p;
     chatResult_innerHTML := chatResult_innerHTML p |}.

Definition set_error_display (d : jsstring) (p : Page) : Page :=
  {| text_value := text_value p; sourceLang_value := sourceLang_value p;
     targetLang_value := targetLang_value p; submit_disabled := submit_disabled p;
     error_display := d;
     errorMessage_textContent := errorMessage_textContent p;
     results_display := results_display p;
     sentimentResult_innerHTML := sentimentResult_innerHTML p;
     translationResult_innerHTML := translationResult_innerHTML p;
     chatResult_innerHTML := chatResult_innerHTML p |}.

Definition set_errorMessage_textContent (s : jsstring) (p : Page) : Page :=
  {| text_value := text_value p; sourceLang_value := sourceLang_value p;
     targetLang_value := targetLang_value p; submit_disabled := submit_disabled p;
     error_display := error_display p;
     errorMessage_textContent := s;
     results_display := results_display p;
     sentimentResult_innerHTML := sentimentResult_innerHTML p;
     translationResult_innerHTML := translationResult_innerHTML p;
     chatResult_innerHTML := chatResult_innerHTML p |}.

Definition set_results_display (d : jsstring) (p : Page) : Page :=
  {| text_value := text_value p; sourceLang_value := sourceLang_value p;
     targetLang_value := targetLang_value p; submit_disabled := submit_disabled p;
     error_display := error_display p;
     errorMessage_textContent := errorMessage_textContent p;
     results_display := d;
     sentimentResult_innerHTML := sentimentResult_innerHTML p;
     translationResult_innerHTML := translationResult_innerHTML p;
     chatResult_innerHTML := chatResult_innerHTML p |}.

Definition set_sentimentResult_innerHTML (s : jsstring) (p : Page) : Page :=
  {| text_value := text_value p; sourceLang_value := sourceLang_value p;
     targetLang_value := targetLang_value p; submit_disabled := submit_disabled p;
     error_display := error_display p;
     errorMessage_textContent := errorMessage_textContent p;
     results_display := results_display p;
     sentimentResult_innerHTML := s;
     translationResult_innerHTML := translationResult_innerHTML p;
     chatResult_innerHTML := chatResult_innerHTML p |}.

Definition set_translationResult_innerHTML (s : jsstring) (p : Page) : Page :=
  {| text_value := text_value p; sourceLang_value := sourceLang_value p;
     targetLang_value := targetLang_value p; submit_disabled := submit_disabled p;
     error_display := error_display p;
     errorMessage_textContent := errorMessage_textContent p;
     results_display := results_display p;
     sentimentResult_innerHTML := sentimentResult_innerHTML p;
     translationResult_innerHTML := s;
     chatResult_innerHTML := chatResult_innerHTML p |}.

Definition set_chatResult_innerHTML (s : jsstring) (p : Page) : Page :=
  {| text_value := text_value p; sourceLang_value := sourceLang_value p;
     targetLang_value := targetLang_value p; submit_disabled := submit_disabled p;
     error_display := error_display p;
     errorMessage_textContent := errorMessage_textContent p;
     results_display := results_display p;
     sentimentResult_innerHTML := sentimentResult_innerHTML p;
     translationResult_innerHTML := translationResult_innerHTML p;
     chatResult_innerHTML := s |}.

(** [element.innerHTML = v]: the markup given to the element is the string
    conversion of [v], [null] giving the empty string. *)
Definition markup_of (v : value) : completion jsstring :=
  match v with
  | Null => Normal []
  | _ => to_string v
  end.

Definition assign_innerHTML (set : jsstring -> Page -> Page) (v : value) : Action unit :=
  markup <- eval (markup_of v) ;;
  write (set markup).

(** ** The script *)

(** Lines 76-82. *)
Definition showError (message : jsstring) : Action unit :=
  write (set_errorMessage_textContent message) ;;
  write (set_error_display (lit "block")) ;;
  write (set_results_display (lit "none")).

(** Lines 84-86. *)
Definition hideError : Action unit := write (set_error_display (lit "none")).

(** Lines 88-90. *)
Definition hideResults : Action unit := write (set_results_display (lit "none")).

(** Lines 92-94. *)
Definition showResults : Action unit := write (set_results_display (lit "block")).

Definition error_span (message : jsstring) : jsstring :=
  lit "<span class=" ++ dquote ++ lit "text-danger" ++ dquote ++ lit ">Error: "
    ++ message ++ lit "</span>".

(** Lines 45-47. *)
Definition sentimentHtml (data : value) : completion jsstring :=
  c <- path data [lit "sentiment"; lit "error"] ;;
  if truthy c then
    e <- path data [lit "sentiment"; lit "error"] ;;
    message <- to_string e ;;
    ret (error_span message)
  else
    l <- path data [lit "sentiment"; lit "sentiment"] ;;
    label <- to_string l ;;
    x <- path data [lit "sentiment"; lit "score"] ;;
    score <- call_toFixed x 2 ;;
    ret (lit "Sentiment: " ++ label ++ lit " (Score: " ++ score ++ lit ")").

(** Lines 51-53. *)
Definition translationHtml (data : value) : completion value :=
  c <- path data [lit "translation"; lit "error"] ;;
  if truthy c then
    e <- path data [lit "translation"; lit "error"] ;;
    message <- to_string e ;;
    ret (Str (error_span message))
  else
    path data [lit "translation"; lit "text"].

(** Lines 57-59. *)
Definition chatHtml (data : value) : completion value :=
  c <- path data [lit "chat"; lit "error"] ;;
  if truthy c then
    e <- path data [lit "chat"; lit "error"] ;;
    message <- to_string e ;;
    ret (Str (error_span message))
  else
    path data [lit "chat"; lit "response"].

Definition generic_message : jsstring :=
  lit "An error occurred while processing your request. Please try again.".

Definition empty_input_message : jsstring :=
  lit "Please enter some text to analyze.".

(** Lines 19-29. *)
Definition analyze_request (text sourceLang targetLang : jsstring) : Request :=
  {| url := lit "/analyze";
     method := lit "POST";
     content_type := lit "application/json";
     body := {| text := text; source_lang := sourceLang; target_lang := targetLang |} |}.

(** Lines 37-65: what is done with the parsed envelope. *)
Definition display_results (data : value) : Action unit :=
  c <- eval (get data (lit "error")) ;;
  (if truthy c
   then e <- eval (get data (lit "error")) ;;
        message <- eval (to_string e) ;;
        throw (Error message)
   else ret tt) ;;
  write (set_results_display (lit "block")) ;;
  sentiment <- eval (sentimentHtml data) ;;
  assign_innerHTML set_sentimentResult_innerHTML (Str sentiment) ;;
  translation <- eval (translationHtml data) ;;
  assign_innerHTML set_translationResult_innerHTML translation ;;
  chat <- eval (chatHtml data) ;;
  assign_innerHTML set_chatResult_innerHTML chat ;;
  performance <- eval (get data (lit "performance")) ;;
  if truthy performance
  then emit (ConsoleLog (lit "Performance:") performance)
  else ret tt.

(** Lines 19-65: the body of the [try]. *)
Definition request_processing (net : Network) (text sourceLang targetLang : jsstring)
    : Action unit :=
  let request := analyze_request text sourceLang targetLang in
  emit (Fetch request) ;;
  response <- eval (net request) ;;
  (if negb (ok response)
   then throw (Error (lit "HTTP error! status: " ++ decimal (status response)))
   else ret tt) ;;
  emit ReadJson ;;
  data <- eval (json response) ;;
  display_results data.

(** Lines 1-74: the listener for the form's [submit] event. *)
Definition submit_handler (net : Network) : Action unit :=
  emit PreventDefault ;;
  text <- read text_value ;;
  if negb (truthy (Str (trim text))) then
    showError empty_input_message
  else
    sourceLang <- read sourceLang_value ;;
    targetLang <- read targetLang_value ;;
    write (set_submit_disabled true) ;;
    hideError ;;
    hideResults ;;
    try_catch_finally
      (request_processing net text sourceLang targetLang)
      (fun error =>
         emit (ConsoleError (lit "Error:") error) ;;
         showError generic_message)
      (write (set_submit_disabled false)).

(** The page and the events after one submission on page [p]. *)
Definition submit (net : Network) (p : Page) : World :=
  snd (submit_handler net {| page := p; events := [] |}).

(** ** Shapes of the envelope

    The words of the wire contract, for the statements below: a slot holds a
    property, a slot failed with a message, a slot succeeded. *)

Definition has (v : value) (k : String.string) (x : value) : Prop :=
  get v (lit k) = Normal x.
Arguments has v k%_string x.

(** The [error] field is truthy and reads as the text [message]. *)
Definition failed_with (slot : value) (message : jsstring) : Prop :=
  exists c, has slot "error" c /\ truthy c = true /\ to_string c = Normal message.

(** The [error] field is missing or not truthy. *)
Definition succeeded (slot : value) : Prop :=
  exists c, has slot "error" c /\ truthy c = false.

Definition sentiment_content (label : jsstring) (score : Number.number) : jsstring :=
  lit "Sentiment: " ++ label ++ lit " (Score: " ++ Number.toFixed score 2 ++ lit ")".

(** What the region of each slot is to show, from the slot alone. *)
Inductive shows_sentiment (slot : value) : jsstring -> Prop :=
| sentiment_failed message :
    failed_with slot message -> shows_sentiment slot (error_span message)
| sentiment_succeeded label score :
    succeeded slot ->
    has slot "sentiment" (Str label) -> has slot "score" (Num score) ->
    shows_sentiment slot (sentiment_content label score).

Inductive shows_translation (slot : value) : jsstring -> Prop :=
| translation_failed message :
    failed_with slot message -> shows_translation slot (error_span message)
| translation_succeeded text :
    succeeded slot -> has slot "text" (Str text) -> shows_translation slot text.

Inductive shows_chat (slot : value) : jsstring -> Prop :=
| chat_failed message :
    failed_with slot message -> shows_chat slot (error_span message)
| chat_succeeded response :
    succeeded slot -> has slot "response" (Str response) -> shows_chat slot response.

(** Empty or whitespace-only text. *)
Definition blank (s : jsstring) : bool := forallb is_white_space s.

(** An element is shown unless its [display] is ["none"]. *)
Definition visible (display : jsstring) : Prop := display <> lit "none".

(** The page after [showError message]. *)
Definition error_shown (message : jsstring) (p : Page) : Page :=
  set_results_display (lit "none")
    (set_error_display (lit "block") (set_errorMessage_textContent message p)).

(** The page when the request is about to be sent (lines 14-16). *)
Definition loading (p : Page) : Page :=
  set_results_display (lit "none")
    (set_error_display (lit "none") (set_submit_disabled true p)).

(** The request the handler sends from page [p]. *)
Definition request_of (p : Page) : Request :=
  analyze_request (text_value p) (sourceLang_value p) (targetLang_value p).

(** The [catch] and [finally] blocks after the body of the [try]. *)
Definition settled (thrown : option exn) (w' : World) : World :=
  match thrown with
  | None =>
      {| page := set_submit_disabled false (page w'); events := events w' |}
  | Some e =>
      {| page := set_submit_disabled false (error_shown generic_message (page w'));
         events := events w' ++ [ConsoleError (lit "Error:") e] |}
  end.

Definition thrown_by {A : Type} (c : completion A) : option exn :=
  match c with
  | Normal _ => None
  | Throw e => Some e
  end.

(** ** Sample pages, servers and envelopes *)

Module Sample.

Definition idle_page (input : jsstring) : Page :=
  {| text_value := input;
     sourceLang_value := lit "en";
     targetLang_value := lit "fr";
     submit_disabled := false;
     error_display := lit "none";
     errorMessage_textContent := [];
     results_display := lit "none";
     sentimentResult_innerHTML := [];
     translationResult_innerHTML := [];
     chatResult_innerHTML := [] |}.

(** The page while an earlier request is still in flight. *)
Definition busy_page (input : jsstring) : Page :=
  set_submit_disabled true (idle_page input).

Definition hello : jsstring := lit "hello".

(** A space, a tab, a no-break space and a line feed. *)
Definition spaces : jsstring := [0x20; 0x9; 0xA0; 0xA].

Definition offline : Network := fun _ => Throw TypeError.

Definition answers (code : N) (parsed : completion value) : Network :=
  fun _ => Normal {| status := code; json := parsed |}.

Definition field (k : String.string) (v : value) : jsstring * value := (lit k, v).
Arguments field k%_string v.

(** 0.75 *)
Definition three_quarters : Number.number := S754_finite false 3 (-2).

Definition sentiment_ok : value :=
  Obj [field "sentiment" (Str (lit "POSITIVE")); field "score" (Num three_quarters)].
Definition translation_ok : value := Obj [field "text" (Str (lit "bonjour"))].
Definition chat_ok : value := Obj [field "response" (Str (lit "Hi there"))].

Definition all_ok : value :=
  Obj [field "sentiment" sentiment_ok; field "translation" translation_ok;
       field "chat" chat_ok].

Definition bad_input : value := Obj [field "error" (Str (lit "bad input"))].



Definition no_translation : value :=
  Obj [field "sentiment" sentiment_ok; field "chat" chat_ok].

End Sample.

(** ** Words for further statements *)

Definition is_digit (c : N) : bool := (0x30 <=? c) && (c <=? 0x39).

(** A number [toFixed] writes in fixed notation: zero, or finite and below
    10^21 in magnitude. *)
Definition fixed_range (x : Number.number) : bool :=
  match x with
  | S754_zero _ => true
  | S754_finite _ m e =>
      negb (Qle_bool (Number.pow 10 21) (Number.magnitude m e))
  | S754_infinity _ | S754_nan => false
  end.

Definition is_fetch (ev : event) : bool :=
  match ev with
  | Fetch _ => true
  | _ => false
  end.

(** What can follow the request in the events of one submission. *)
Inductive after_fetch : list event -> Prop :=
| fetch_failed e :
    after_fetch [ConsoleError (lit "Error:") e]
| envelope_failed e :
    after_fetch [ReadJson; ConsoleError (lit "Error:") e]
| envelope_displayed :
    after_fetch [ReadJson]
| envelope_displayed_and_logged v :
    after_fetch [ReadJson; ConsoleLog (lit "Performance:") v].

(** Envelopes off the wire contract. *)
Module Edge.

(** The chat slot is [null]. *)
Definition chat_null : value :=
  Obj [Sample.field "sentiment" Sample.sentiment_ok;
       Sample.field "translation" Sample.translation_ok;
       Sample.field "chat" Null].

(** The sentiment slot has no score. *)
Definition no_score : value :=
  Obj [Sample.field "sentiment" (Obj [Sample.field "sentiment" (Str (lit "POSITIVE"))]);
       Sample.field "translation" Sample.translation_ok;
       Sample.field "chat" Sample.chat_ok].

(** The translation slot has no text. *)
Definition no_text : value :=
  Obj [Sample.field "sentiment" Sample.sentiment_ok;
       Sample.field "translation" (Obj []);
       Sample.field "chat" Sample.chat_ok].

(** The envelope with performance data. *)
Definition timed : value :=
  Obj [Sample.field "sentiment" Sample.sentiment_ok;
       Sample.field "translation" Sample.translation_ok;
       Sample.field "chat" Sample.chat_ok;
       Sample.field "performance" (Obj [Sample.field "total" (Num Sample.three_quarters)])].

(** Blank text typed while the results of an earlier submission are shown. *)
Definition results_shown : Page :=
  {| text_value := Sample.spaces;
     sourceLang_value := lit "en";
     targetLang_value := lit "fr";
     submit_disabled := false;
     error_display := lit "none";
     errorMessage_textContent := [];
     results_display := lit "block";
     sentimentResult_innerHTML := lit "Sentiment: POSITIVE (Score: 0.75)";
     translationResult_innerHTML := lit "bonjour";
     chatResult_innerHTML := lit "Hi there" |}.

End Edge.

(** ** The listener between its awaits

    The listener is suspended twice: on [await fetch(...)] (line 19) and on
    [await response.json()] (line 35). While it is suspended the request may
    stay pending for ever, and other listeners may run on the same page.
    [submit_handler] is the listener with both promises settling and nothing
    run in between ([uninterrupted_is_submit_handler] below); the three
    stretches it is made of are these. *)

(** Lines 67-69. *)
Definition on_error (error : exn) : Action unit :=
  emit (ConsoleError (lit "Error:") error) ;;
  showError generic_message.

(** Lines 70-73. *)
Definition cleanup : Action unit := write (set_submit_disabled false).

(** Lines 1-29, up to the call of [fetch]: [Some request] when the listener is
    left suspended on the request, [None] when it has returned. *)
Definition until_fetch : Action (option Request) :=
  emit PreventDefault ;;
  text <- read text_value ;;
  if negb (truthy (Str (trim text))) then
    showError empty_input_message ;;
    ret None
  else
    sourceLang <- read sourceLang_value ;;
    targetLang <- read targetLang_value ;;
    write (set_submit_disabled true) ;;
    hideError ;;
    hideResults ;;
    let request := analyze_request text sourceLang targetLang in
    emit (Fetch request) ;;
    ret (Some request).

(** Lines 19-35, from the moment the request settles up to the call of
    [response.json()]: [Some response] when the listener is left suspended on
    the body, [None] when an exception has been caught and it has ended. *)
Definition when_fetch_settles (settled : completion Response)
    : Action (option Response) :=
  fun w =>
    match (response <- eval settled ;;
           (if negb (ok response)
            then throw (Error (lit "HTTP error! status: "
                                 ++ decimal (status response)))
            else ret tt) ;;
           emit ReadJson ;;
           ret response) w with
    | (Normal response, w') => (Normal (Some response), w')
    | (Throw e, w') =>
        match try_catch_finally (throw e) on_error cleanup w' with
        | (Normal _, w'') => (Normal None, w'')
        | (Throw e', w'') => (Throw e', w'')
        end
    end.

(** Lines 35-73, from the moment the body settles to the end. *)
Definition when_json_settles (settled : completion value) : Action unit :=
  try_catch_finally (data <- eval settled ;; display_results data)
    on_error cleanup.

(** The three stretches with nothing in between. *)
Definition uninterrupted (net : Network) : Action unit :=
  suspended <- until_fetch ;;
  match suspended with
  | None => ret tt
  | Some request =>
      suspended' <- when_fetch_settles (net request) ;;
      match suspended' with
      | None => ret tt
      | Some response => when_json_settles (json response)
      end
  end.

(** The page and the events after a submission on page [p] during which
    nothing else runs. *)
Definition handled_alone (net : Network) (p : Page) : World :=
  snd (uninterrupted net {| page := p; events := [] |}).

(** The user typing into the text field. *)
Definition set_text_value (s : jsstring) (p : Page) : Page :=
  {| text_value := s; sourceLang_value := sourceLang_value p;
     targetLang_value := targetLang_value p; submit_disabled := submit_disabled p;
     error_display := error_display p;
     errorMessage_textContent := errorMessage_textContent p;
     results_display := results_display p;
     sentimentResult_innerHTML := sentimentResult_innerHTML p;
     translationResult_innerHTML := translationResult_innerHTML p;
     chatResult_innerHTML := chatResult_innerHTML p |}.

(** A second submission, of blank text, handled while the first one is
    suspended on its request: the first listener runs up to [fetch], the user
    empties the field and submits, that listener runs to its end, then the
    first request settles with [response] and the body is read. *)
Definition overlapped (p : Page) (blank_text : jsstring) (response : Response)
    : World :=
  let w1 := snd (until_fetch {| page := p; events := [] |}) in
  let w2 := snd (write (set_text_value blank_text) w1) in
  let w3 := snd (until_fetch w2) in
  match when_fetch_settles (Normal response) w3 with
  | (Normal (Some r), w4) => snd (when_json_settles (json r) w4)
  | (_, w4) => w4
  end.

(** ** Numbers and numerals *)

(** The number a string of decimal digits denotes. *)
Definition digits_value (s : jsstring) : Z :=
  fold_left (fun acc c => (10 * acc + (Z.of_N c - 48))%Z) s 0%Z.

(** The exact magnitude of a number that is zero or finite. *)
Definition magnitude_of (x : Number.number) : Q :=
  match x with
  | S754_finite _ m e => Number.magnitude m e
  | _ => 0%Q
  end.

(** [x < 0]. *)
Definition below_zero (x : Number.number) : bool :=
  match x with
  | S754_finite s _ _ | S754_infinity s => s
  | S754_zero _ | S754_nan => false
  end.

(** [n] hundredths is the multiple of 0.01 nearest to [q], the larger one of
    two. *)
Definition nearest_hundredth (q : Q) (n : Z) : Prop :=
  (inject_Z n - (1 # 2) <= (100 # 1) * q /\ (100 # 1) * q < inject_Z n + (1 # 2))%Q.



(** * Properties *)

(** ** Numbers as text *)

Example to_string_tenth :
  Number.to_string (S754_finite false 3602879701896397 (-55)) = lit "0.1".
Proof. vm_compute. reflexivity. Qed.

Example to_string_sum :
  Number.to_string (S754_finite false 1351079888211149 (-52))
  = lit "0.30000000000000004".
Proof. vm_compute. reflexivity. Qed.

Example to_string_large :
  Number.to_string (S754_finite false 1 70) = lit "1.1805916207174113e+21".
Proof. vm_compute. reflexivity. Qed.

Example to_string_least :
  Number.to_string (S754_finite false 1 (-1074)) = lit "5e-324".
Proof. vm_compute. reflexivity. Qed.

Example to_string_not_canonical :
  Number.to_string (S754_finite true 3 (-1)) = lit "-1.5".
Proof. vm_compute. reflexivity. Qed.

(** 1.005 is a little less than 1.005 as a binary64 value. *)
Example toFixed_rounds_the_exact_value :
  Number.toFixed (S754_finite false 4526117625507348 (-52)) 2 = lit "1.00".
Proof. vm_compute. reflexivity. Qed.

Example toFixed_half_up :
  Number.toFixed (S754_finite false 1 (-3)) 2 = lit "0.13".
Proof. vm_compute. reflexivity. Qed.

Example toFixed_negative :
  Number.toFixed (S754_finite true 3 (-2)) 2 = lit "-0.75".
Proof. vm_compute. reflexivity. Qed.

(** Below 10^21, [toFixed(2)] gives two digits after the point. *)
Lemma toFixed_two_decimals (s : bool) (m : positive) (e : Z) :
  Qle_bool (Number.pow 10 21) (Number.magnitude m e) = false ->
  exists whole frac,
    Number.toFixed (S754_finite s m e) 2 =
      (if s then lit "-" else []) ++ whole ++ lit "." ++ frac
    /\ whole <> [] /\ length frac = 2%nat.
Proof.
  intros H. unfold Number.toFixed. rewrite H. unfold Number.fixed_layout.
  cbv beta iota zeta.
  set (ds := if (Number.fixed_integer m e 2 =? 0)%Z then lit "0" else _).
  set (ds' := if (length ds <=? 2)%nat then _ ++ ds else ds).
  assert (Hk : (3 <= length ds')%nat).
  { subst ds'. destruct (length ds <=? 2)%nat eqn:E.
    - apply Nat.leb_le in E. rewrite length_app, repeat_length. lia.
    - apply Nat.leb_gt in E. lia. }
  exists (firstn (length ds' - 2) ds'), (skipn (length ds' - 2) ds').
  split; [reflexivity|]. split.
  - intros E. apply (f_equal (@length N)) in E.
    rewrite length_firstn in E. cbn in E. lia.
  - rewrite length_skipn. lia.
Qed.

(** ** Trimming *)

Lemma trimStart_nil_iff (s : jsstring) : trimStart s = [] <-> blank s = true.
Proof.
  induction s as [|c s IH]; cbn; [tauto|].
  destruct (is_white_space c); cbn; [exact IH|].
  split; discriminate.
Qed.

Lemma trimStart_head (s : jsstring) (c : N) (s' : jsstring) :
  trimStart s = c :: s' -> is_white_space c = false.
Proof.
  induction s as [|a s IH]; cbn; [discriminate|].
  destruct (is_white_space a) eqn:Ea; [exact IH|].
  intros [= <- _]. exact Ea.
Qed.

Lemma blank_rev (s : jsstring) : blank (rev s) = true -> blank s = true.
Proof.
  unfold blank. rewrite !forallb_forall. intros H c Hc.
  apply H, in_rev. rewrite rev_involutive. exact Hc.
Qed.

Lemma trim_nil_iff (s : jsstring) : trim s = [] <-> blank s = true.
Proof.
  unfold trim, trimEnd. split.
  - intros H.
    assert (H1 : trimStart (rev (trimStart s)) = []).
    { rewrite <- (rev_involutive (trimStart _)), H. reflexivity. }
    apply trimStart_nil_iff, blank_rev in H1.
    destruct (trimStart s) as [|c t] eqn:Et.
    + apply trimStart_nil_iff, Et.
    + apply trimStart_head in Et. cbn in H1. rewrite Et in H1. discriminate.
  - intros H. apply trimStart_nil_iff in H. rewrite H. reflexivity.
Qed.

Lemma truthy_trim (s : jsstring) : truthy (Str (trim s)) = negb (blank s).
Proof.
  destruct (blank s) eqn:E.
  - apply trim_nil_iff in E. rewrite E. reflexivity.
  - cbn. destruct (trim s) eqn:Et; [|reflexivity].
    apply trim_nil_iff in Et. congruence.
Qed.

(** ** The paths of the handler *)

Section Handler.

Variable net : Network.
Variable w : World.

Let p := page w.

Lemma submit_handler_blank :
  blank (text_value p) = true ->
  submit_handler net w =
    (Normal tt, {| page := error_shown empty_input_message p;
                   events := events w ++ [PreventDefault] |}).
Proof.
  intros H. unfold submit_handler. cbn -[truthy trim]. fold p.
  rewrite truthy_trim, H. reflexivity.
Qed.

Lemma submit_handler_sends :
  blank (text_value p) = false ->
  submit_handler net w =
    try_catch_finally
      (request_processing net (text_value p) (sourceLang_value p) (targetLang_value p))
      (fun error =>
         emit (ConsoleError (lit "Error:") error) ;; showError generic_message)
      (write (set_submit_disabled false))
      {| page := loading p; events := events w ++ [PreventDefault] |}.
Proof.
  intros H. unfold submit_handler. cbn -[truthy trim]. fold p.
  rewrite truthy_trim, H. reflexivity.
Qed.

Lemma try_catch_finally_settled (body : Action unit) :
  try_catch_finally body
    (fun error =>
       emit (ConsoleError (lit "Error:") error) ;; showError generic_message)
    (write (set_submit_disabled false)) w =
  (Normal tt, settled (thrown_by (fst (body w))) (snd (body w))).
Proof.
  unfold try_catch_finally.
  destruct (body w) as [[[]|e] w']; reflexivity.
Qed.

End Handler.

(** The handler leaves no exception uncaught. *)
Lemma submit_handler_completes (net : Network) (w : World) :
  fst (submit_handler net w) = Normal tt.
Proof.
  destruct (blank (text_value (page w))) eqn:Hb.
  - rewrite submit_handler_blank by exact Hb. reflexivity.
  - rewrite submit_handler_sends by exact Hb.
    rewrite try_catch_finally_settled. reflexivity.
Qed.

(** The outcome of a submission whose text is not blank. *)
Lemma submit_sends (net : Network) (p : Page) :
  blank (text_value p) = false ->
  let r := request_processing net (text_value p) (sourceLang_value p)
             (targetLang_value p)
             {| page := loading p; events := [PreventDefault] |} in
  submit net p = settled (thrown_by (fst r)) (snd r).
Proof.
  intros H. unfold submit.
  rewrite submit_handler_sends by exact H.
  rewrite try_catch_finally_settled. reflexivity.
Qed.

Lemma submit_blank (net : Network) (p : Page) :
  blank (text_value p) = true ->
  submit net p = {| page := error_shown empty_input_message p;
                    events := [PreventDefault] |}.
Proof.
  intros H. unfold submit. rewrite submit_handler_blank by exact H. reflexivity.
Qed.

(** ** The body of the [try] *)

Section Processing.

Variable net : Network.
Variables text sourceLang targetLang : jsstring.
Variable w : World.

Let request := analyze_request text sourceLang targetLang.
Let sent : World := {| page := page w; events := events w ++ [Fetch request] |}.
Let parsed : World :=
  {| page := page w; events := (events w ++ [Fetch request]) ++ [ReadJson] |}.

Lemma processing_rejected (e : exn) :
  net request = Throw e ->
  request_processing net text sourceLang targetLang w = (Throw e, sent).
Proof.
  intros H. unfold request_processing. cbn. fold request. rewrite H. reflexivity.
Qed.

Lemma processing_bad_status (r : Response) :
  net request = Normal r -> ok r = false ->
  request_processing net text sourceLang targetLang w =
    (Throw (Error (lit "HTTP error! status: " ++ decimal (status r))), sent).
Proof.
  intros H Hok. unfold request_processing. cbn -[lit decimal]. fold request.
  rewrite H, Hok. reflexivity.
Qed.

Lemma processing_unparsed (r : Response) (e : exn) :
  net request = Normal r -> ok r = true -> json r = Throw e ->
  request_processing net text sourceLang targetLang w = (Throw e, parsed).
Proof.
  intros H Hok Hj. unfold request_processing. cbn -[lit decimal]. fold request.
  rewrite H, Hok. cbn. rewrite Hj. reflexivity.
Qed.

Lemma processing_parsed (r : Response) (data : value) :
  net request = Normal r -> ok r = true -> json r = Normal data ->
  request_processing net text sourceLang targetLang w = display_results data parsed.
Proof.
  intros H Hok Hj. unfold request_processing. cbn -[lit decimal display_results].
  fold request. rewrite H, Hok. cbn -[display_results]. rewrite Hj. reflexivity.
Qed.

End Processing.

Lemma ok_200 (r : Response) : status r = 200 -> ok r = true.
Proof. unfold ok. intros ->. reflexivity. Qed.

Lemma ok_false_iff (r : Response) :
  ok r = false <-> (status r < 200 \/ 299 < status r).
Proof.
  unfold ok. rewrite andb_false_iff, !N.leb_gt. tauto.
Qed.

(** ** The envelope *)

Lemma get_total (v : value) (k k' : jsstring) (x : value) :
  get v k = Normal x -> exists x', get v k' = Normal x'.
Proof.
  destruct v; cbn; try discriminate; eauto.
Qed.

Lemma markup_of_Str (h : jsstring) : markup_of (Str h) = Normal h.
Proof. reflexivity. Qed.

Ltac step :=
  cbn -[lit get to_string truthy sentimentHtml translationHtml chatHtml markup_of];
  rewrite ?markup_of_Str;
  cbn -[lit get to_string truthy sentimentHtml translationHtml chatHtml markup_of].

Section Display.

Variable data : value.
Variable w : World.

Lemma display_unreadable (e : exn) :
  get data (lit "error") = Throw e ->
  display_results data w = (Throw e, w).
Proof.
  intros H. unfold display_results. cbn -[lit get]. rewrite H. reflexivity.
Qed.

Lemma display_top_level_error (c : value) :
  get data (lit "error") = Normal c -> truthy c = true ->
  display_results data w =
    (Throw (match to_string c with Normal m => Error m | Throw e => e end), w).
Proof.
  intros H Ht. unfold display_results. cbn -[lit get to_string truthy].
  rewrite H, Ht. cbn -[lit get to_string truthy].
  destruct (to_string c); reflexivity.
Qed.

(** The page once the results region is revealed (line 42). *)
Let revealed : Page := set_results_display (lit "block") (page w).

Lemma display_sentiment_throws (c : value) (e : exn) :
  get data (lit "error") = Normal c -> truthy c = false ->
  sentimentHtml data = Throw e ->
  display_results data w = (Throw e, {| page := revealed; events := events w |}).
Proof.
  intros H Ht Hs. unfold display_results.
  cbn -[lit get to_string truthy sentimentHtml translationHtml chatHtml].
  rewrite H, Ht. cbn -[lit get to_string truthy sentimentHtml translationHtml chatHtml].
  rewrite Hs. reflexivity.
Qed.

Lemma display_translation_throws (c : value) (h1 : jsstring) (e : exn) :
  get data (lit "error") = Normal c -> truthy c = false ->
  sentimentHtml data = Normal h1 ->
  (v <- translationHtml data ;; markup_of v) = Throw e ->
  display_results data w =
    (Throw e, {| page := set_sentimentResult_innerHTML h1 revealed;
                 events := events w |}).
Proof.
  intros H Ht Hs Hv. unfold display_results.
  step.
  rewrite H, Ht. step.
  rewrite Hs. step.
  revert Hv. destruct (translationHtml data) as [v|e']; step; intros Hv.
  - rewrite Hv. reflexivity.
  - injection Hv as ->. reflexivity.
Qed.

Lemma display_chat_throws (c : value) (h1 h2 : jsstring) (v2 : value) (e : exn) :
  get data (lit "error") = Normal c -> truthy c = false ->
  sentimentHtml data = Normal h1 ->
  translationHtml data = Normal v2 -> markup_of v2 = Normal h2 ->
  (v <- chatHtml data ;; markup_of v) = Throw e ->
  display_results data w =
    (Throw e, {| page := set_translationResult_innerHTML h2
                           (set_sentimentResult_innerHTML h1 revealed);
                 events := events w |}).
Proof.
  intros H Ht Hs Hv Hm Hc. unfold display_results.
  step.
  rewrite H, Ht. step.
  rewrite Hs. step.
  rewrite Hv. step.
  rewrite Hm. step.
  revert Hc. destruct (chatHtml data) as [v|e']; step; intros Hc.
  - rewrite Hc. reflexivity.
  - injection Hc as ->. reflexivity.
Qed.

Lemma display_all (c : value) (h1 h2 h3 : jsstring) (v2 v3 : value) :
  get data (lit "error") = Normal c -> truthy c = false ->
  sentimentHtml data = Normal h1 ->
  translationHtml data = Normal v2 -> markup_of v2 = Normal h2 ->
  chatHtml data = Normal v3 -> markup_of v3 = Normal h3 ->
  exists log,
    display_results data w =
      (Normal tt, {| page := set_chatResult_innerHTML h3
                               (set_translationResult_innerHTML h2
                                  (set_sentimentResult_innerHTML h1 revealed));
                     events := events w ++ log |})
    /\ forall ev, In ev log -> exists v, ev = ConsoleLog (lit "Performance:") v.
Proof.
  intros H Ht Hs Hv Hm Hc Hn.
  destruct (get_total _ _ (lit "performance") _ H) as [perf Hp].
  exists (if truthy perf then [ConsoleLog (lit "Performance:") perf] else []).
  split.
  - unfold display_results.
    step.
    rewrite H, Ht. step.
    rewrite Hs. step.
    rewrite Hv. step.
    rewrite Hm. step.
    rewrite Hc. step.
    rewrite Hn. step.
    rewrite Hp. step.
    destruct (truthy perf); cbn; [reflexivity|].
    rewrite app_nil_r. reflexivity.
  - intros ev. destruct (truthy perf); cbn; [|tauto].
    intros [<-|[]]. eauto.
Qed.

End Display.

(** ** The markup of each slot *)

Lemma path_slot (data slot : value) (k k' : jsstring) :
  get data k = Normal slot -> path data [k; k'] = get slot k'.
Proof.
  intros H. cbn -[get]. rewrite H. destruct (get slot k'); reflexivity.
Qed.

Ltac slot_fields :=
  repeat match goal with
         | H : has _ _ _ |- _ => unfold has in H
         | H : get ?d ?k = Normal ?s |- context [path ?d [?k; ?k']] =>
             rewrite (path_slot d s k k' H)
         | H : get ?s ?k = Normal _ |- context [get ?s ?k] => rewrite H
         | H : truthy ?c = _ |- context [truthy ?c] => rewrite H
         | H : to_string ?c = _ |- context [to_string ?c] => rewrite H
         | |- _ => progress cbn -[lit get to_string truthy path error_span Number.toFixed]
         end.

Lemma sentimentHtml_shows (data slot : value) (h : jsstring) :
  has data "sentiment" slot -> shows_sentiment slot h ->
  sentimentHtml data = Normal h.
Proof.
  intros Hd [m (c & Hc & Ht & Hm)|label score (c & Hc & Ht) Hl Hs];
    unfold sentimentHtml; slot_fields; reflexivity.
Qed.

Lemma translationHtml_shows (data slot : value) (h : jsstring) :
  has data "translation" slot -> shows_translation slot h ->
  translationHtml data = Normal (Str h).
Proof.
  intros Hd [m (c & Hc & Ht & Hm)|tx (c & Hc & Ht) Hx];
    unfold translationHtml; slot_fields; reflexivity.
Qed.

Lemma chatHtml_shows (data slot : value) (h : jsstring) :
  has data "chat" slot -> shows_chat slot h ->
  chatHtml data = Normal (Str h).
Proof.
  intros Hd [m (c & Hc & Ht & Hm)|tx (c & Hc & Ht) Hx];
    unfold chatHtml; slot_fields; reflexivity.
Qed.

(** ** What no path of the [try] body touches *)

Ltac split_cases :=
  repeat (step;
          match goal with
          | |- context [match ?x with _ => _ end] =>
              lazymatch x with
              | context [match _ with _ => _ end] => fail
              | _ => destruct x eqn:?
              end
          end).

Lemma display_results_frame (data : value) (w : World) :
  let r := display_results data w in
  error_display (page (snd r)) = error_display (page w)
  /\ errorMessage_textContent (page (snd r)) = errorMessage_textContent (page w)
  /\ (fst r = Normal tt -> results_display (page (snd r)) = lit "block").
Proof.
  unfold display_results, assign_innerHTML.
  split_cases; cbn; repeat split;
    first [reflexivity | discriminate | intros _; reflexivity].
Qed.

Lemma request_processing_frame (net : Network) (tx sl tl : jsstring) (w : World) :
  let r := request_processing net tx sl tl w in
  error_display (page (snd r)) = error_display (page w)
  /\ errorMessage_textContent (page (snd r)) = errorMessage_textContent (page w)
  /\ (fst r = Normal tt -> results_display (page (snd r)) = lit "block").
Proof.
  unfold request_processing.
  cbn -[lit decimal display_results].
  destruct (net _) as [r|e]; [|cbn; repeat split; try reflexivity; discriminate].
  destruct (ok r); cbn -[lit decimal display_results];
    [|repeat split; try reflexivity; discriminate].
  destruct (json r) as [data|e]; [|cbn; repeat split; try reflexivity; discriminate].
  exact (display_results_frame data {| page := page w; events := _ |}).
Qed.


(** ** A parsed envelope *)

Lemma submit_parsed (net : Network) (p : Page) (r : Response) (data : value) :
  blank (text_value p) = false ->
  net (request_of p) = Normal r -> status r = 200 -> json r = Normal data ->
  let d := display_results data
             {| page := loading p;
                events := [PreventDefault; Fetch (request_of p); ReadJson] |} in
  submit net p = settled (thrown_by (fst d)) (snd d).
Proof.
  intros Hb Hn Hs Hj. cbv zeta. rewrite submit_sends by exact Hb. cbv zeta.
  rewrite (processing_parsed net _ _ _ _ r data Hn (ok_200 r Hs) Hj).
  reflexivity.
Qed.

Lemma sentimentHtml_absent (data : value) :
  has data "sentiment" Undefined -> sentimentHtml data = Throw TypeError.
Proof.
  intros H. unfold sentimentHtml. rewrite (path_slot _ _ _ _ H). reflexivity.
Qed.

Lemma translationHtml_absent (data : value) :
  has data "translation" Undefined -> translationHtml data = Throw TypeError.
Proof.
  intros H. unfold translationHtml. rewrite (path_slot _ _ _ _ H). reflexivity.
Qed.

Lemma chatHtml_absent (data : value) :
  has data "chat" Undefined -> chatHtml data = Throw TypeError.
Proof.
  intros H. unfold chatHtml. rewrite (path_slot _ _ _ _ H). reflexivity.
Qed.

(** With a slot missing, the envelope cannot be displayed to the end. *)
Lemma display_results_absent (data : value) (w : World) :
  succeeded data ->
  has data "sentiment" Undefined \/ has data "translation" Undefined
    \/ has data "chat" Undefined ->
  exists e w', display_results data w = (Throw e, w')
               /\ events w' = events w.
Proof.
  intros (c & Hc & Ht) Habs.
  destruct (sentimentHtml data) as [h1|e1] eqn:E1.
  2:{ eexists _, _. split; [apply (display_sentiment_throws _ _ c e1); assumption|].
      reflexivity. }
  destruct (translationHtml data) as [v2|e2] eqn:E2.
  2:{ eexists _, _. split.
      - apply (display_translation_throws _ _ c h1 e2); try assumption.
        rewrite E2. reflexivity.
      - reflexivity. }
  destruct (markup_of v2) as [h2|e2] eqn:M2.
  2:{ eexists _, _. split.
      - apply (display_translation_throws _ _ c h1 e2); try assumption.
        rewrite E2. exact M2.
      - reflexivity. }
  destruct (chatHtml data) as [v3|e3] eqn:E3.
  2:{ eexists _, _. split.
      - apply (display_chat_throws _ _ c h1 h2 v2 e3); try assumption.
        rewrite E3. reflexivity.
      - reflexivity. }
  destruct Habs as [H|[H|H]].
  - rewrite (sentimentHtml_absent _ H) in E1. discriminate.
  - rewrite (translationHtml_absent _ H) in E2. discriminate.
  - rewrite (chatHtml_absent _ H) in E3. discriminate.
Qed.

(** * The claims *)

(** C3. A submission whose text is empty or made of whitespace only shows the
    message "Please enter some text to analyze." and ends without any request
    having been sent. *)
Theorem blank_text_is_refused (net : Network) (p : Page) :
  blank (text_value p) = true ->
  let w := submit net p in
  errorMessage_textContent (page w) = lit "Please enter some text to analyze."
  /\ error_display (page w) = lit "block"
  /\ (forall r, ~ In (Fetch r) (events w))
  /\ events w = [PreventDefault].
Proof.
  intros H. cbv zeta. rewrite submit_blank by exact H. cbn -[lit].
  repeat split; try reflexivity.
  intros r [E|[]]. discriminate E.
Qed.

Lemma blank_text_is_refused_witness :
  let w := submit Sample.offline (Sample.idle_page Sample.spaces) in
  errorMessage_textContent (page w) = lit "Please enter some text to analyze."
  /\ error_display (page w) = lit "block"
  /\ (forall r, ~ In (Fetch r) (events w))
  /\ events w = [PreventDefault].
Proof.
  apply (blank_text_is_refused Sample.offline (Sample.idle_page Sample.spaces)).
  reflexivity.
Defined.

(** C4. A response whose status is outside 200-299 is never parsed: the body
    is not read, no region of a slot is written, and the generic message is
    shown. *)
Theorem bad_status_is_not_parsed (net : Network) (p : Page) (r : Response) :
  blank (text_value p) = false ->
  net (request_of p) = Normal r ->
  status r < 200 \/ 299 < status r ->
  let w := submit net p in
  ~ In ReadJson (events w)
  /\ events w =
       [PreventDefault; Fetch (request_of p);
        ConsoleError (lit "Error:")
          (Error (lit "HTTP error! status: " ++ decimal (status r)))]
  /\ errorMessage_textContent (page w) =
       lit "An error occurred while processing your request. Please try again."
  /\ error_display (page w) = lit "block"
  /\ results_display (page w) = lit "none"
  /\ sentimentResult_innerHTML (page w) = sentimentResult_innerHTML p
  /\ translationResult_innerHTML (page w) = translationResult_innerHTML p
  /\ chatResult_innerHTML (page w) = chatResult_innerHTML p.
Proof.
  intros Hb Hn Hs. apply ok_false_iff in Hs. cbv zeta.
  rewrite submit_sends by exact Hb. cbv zeta.
  rewrite (processing_bad_status net _ _ _ _ r Hn Hs).
  cbn -[lit decimal]. repeat split; try reflexivity.
  intros [E|[E|[E|[]]]]; discriminate E.
Qed.

Lemma bad_status_is_not_parsed_witness :
  let p := Sample.idle_page Sample.hello in
  let w := submit (Sample.answers 500 (Normal Sample.all_ok)) p in
  ~ In ReadJson (events w)
  /\ events w =
       [PreventDefault; Fetch (request_of p);
        ConsoleError (lit "Error:") (Error (lit "HTTP error! status: 500"))]
  /\ errorMessage_textContent (page w) =
       lit "An error occurred while processing your request. Please try again."
  /\ error_display (page w) = lit "block"
  /\ results_display (page w) = lit "none"
  /\ sentimentResult_innerHTML (page w) = []
  /\ translationResult_innerHTML (page w) = []
  /\ chatResult_innerHTML (page w) = [].
Proof.
  apply (bad_status_is_not_parsed (Sample.answers 500 (Normal Sample.all_ok))
           (Sample.idle_page Sample.hello)
           {| status := 500; json := Normal Sample.all_ok |}).
  - reflexivity.
  - reflexivity.
  - right. reflexivity.
Defined.

(** C5. Whatever error the body of the [try] throws (the request is rejected,
    the body is not JSON, an explicit [throw]), the handler shows the message
    "An error occurred while processing your request. Please try again." and
    hides the results region. *)
Theorem thrown_error_shows_generic_message
    (net : Network) (p : Page) (e : exn) (w' : World) :
  blank (text_value p) = false ->
  request_processing net (text_value p) (sourceLang_value p) (targetLang_value p)
    {| page := loading p; events := [PreventDefault] |} = (Throw e, w') ->
  let w := submit net p in
  errorMessage_textContent (page w) =
    lit "An error occurred while processing your request. Please try again."
  /\ error_display (page w) = lit "block"
  /\ results_display (page w) = lit "none"
  /\ events w = events w' ++ [ConsoleError (lit "Error:") e].
Proof.
  intros Hb Ht. cbv zeta. rewrite submit_sends by exact Hb. cbv zeta.
  rewrite Ht. cbn -[lit]. repeat split; reflexivity.
Qed.

Lemma thrown_error_shows_generic_message_witness :
  let w := submit Sample.offline (Sample.idle_page Sample.hello) in
  errorMessage_textContent (page w) =
    lit "An error occurred while processing your request. Please try again."
  /\ error_display (page w) = lit "block"
  /\ results_display (page w) = lit "none"
  /\ events w =
       [PreventDefault; Fetch (request_of (Sample.idle_page Sample.hello));
        ConsoleError (lit "Error:") TypeError].
Proof.
  apply (thrown_error_shows_generic_message Sample.offline
           (Sample.idle_page Sample.hello) TypeError
           {| page := loading (Sample.idle_page Sample.hello);
              events := [PreventDefault;
                         Fetch (request_of (Sample.idle_page Sample.hello))] |}).
  - reflexivity.
  - reflexivity.
Defined.

(** Two of the causes C5 names, on their own. *)
Corollary network_failure_shows_generic_message (net : Network) (p : Page) (e : exn) :
  blank (text_value p) = false ->
  net (request_of p) = Throw e ->
  errorMessage_textContent (page (submit net p)) = generic_message
  /\ results_display (page (submit net p)) = lit "none".
Proof.
  intros Hb Hn. rewrite submit_sends by exact Hb. cbv zeta.
  rewrite (processing_rejected net _ _ _ _ e Hn). split; reflexivity.
Qed.

Corollary parse_failure_shows_generic_message
    (net : Network) (p : Page) (r : Response) (e : exn) :
  blank (text_value p) = false ->
  net (request_of p) = Normal r -> ok r = true -> json r = Throw e ->
  errorMessage_textContent (page (submit net p)) = generic_message
  /\ results_display (page (submit net p)) = lit "none".
Proof.
  intros Hb Hn Hok Hj. rewrite submit_sends by exact Hb. cbv zeta.
  rewrite (processing_unparsed net _ _ _ _ r e Hn Hok Hj). split; reflexivity.
Qed.

(** C6, as the script has it. A submission that passes the check of its text
    ends with the submit control enabled, whatever the outcome; a submission
    refused for its blank text leaves the control as it was, so it ends
    enabled when it was enabled at the time of the submission. *)
Theorem submit_control_ends_enabled (net : Network) (p : Page) :
  submit_disabled p = false \/ blank (text_value p) = false ->
  submit_disabled (page (submit net p)) = false.
Proof.
  intros H. destruct (blank (text_value p)) eqn:Hb.
  - rewrite submit_blank by exact Hb. cbn.
    destruct H as [H|H]; [exact H|discriminate H].
  - rewrite submit_sends by exact Hb. cbv zeta.
    destruct (thrown_by _); reflexivity.
Qed.

Lemma submit_control_ends_enabled_witness :
  submit_disabled
    (page (submit (Sample.answers 200 (Normal Sample.all_ok))
             (Sample.busy_page Sample.hello))) = false.
Proof.
  apply (submit_control_ends_enabled (Sample.answers 200 (Normal Sample.all_ok))
           (Sample.busy_page Sample.hello)).
  right. reflexivity.
Defined.

(** C6 as stated fails: blank text submitted while the control is disabled
    leaves it disabled. *)
Lemma refused_submission_leaves_control_disabled :
  blank (text_value (Sample.busy_page Sample.spaces)) = true
  /\ submit_disabled
       (page (submit Sample.offline (Sample.busy_page Sample.spaces))) = true.
Proof. split; reflexivity. Qed.

(** C1, as the script has it. A 200 response whose envelope carries a truthy
    top-level [error] makes the whole request fail: the banner shows the
    generic message, the text the server supplied goes to the console only,
    the results region stays hidden and no region of a slot is written. *)
Theorem top_level_error_fails_the_request
    (net : Network) (p : Page) (r : Response) (data : value) (message : jsstring) :
  blank (text_value p) = false ->
  net (request_of p) = Normal r -> status r = 200 -> json r = Normal data ->
  failed_with data message ->
  let w := submit net p in
  errorMessage_textContent (page w) =
    lit "An error occurred while processing your request. Please try again."
  /\ error_display (page w) = lit "block"
  /\ results_display (page w) = lit "none"
  /\ sentimentResult_innerHTML (page w) = sentimentResult_innerHTML p
  /\ translationResult_innerHTML (page w) = translationResult_innerHTML p
  /\ chatResult_innerHTML (page w) = chatResult_innerHTML p
  /\ events w =
       [PreventDefault; Fetch (request_of p); ReadJson;
        ConsoleError (lit "Error:") (Error message)].
Proof.
  intros Hb Hn Hs Hj (c & Hc & Ht & Hm). cbv zeta.
  rewrite (submit_parsed net p r data Hb Hn Hs Hj). cbv zeta.
  rewrite (display_top_level_error data _ c Hc Ht), Hm.
  cbn -[lit]. repeat split; reflexivity.
Qed.

Lemma top_level_error_fails_the_request_witness :
  let p := Sample.idle_page Sample.hello in
  let w := submit (Sample.answers 200 (Normal Sample.bad_input)) p in
  errorMessage_textContent (page w) =
    lit "An error occurred while processing your request. Please try again."
  /\ error_display (page w) = lit "block"
  /\ results_display (page w) = lit "none"
  /\ sentimentResult_innerHTML (page w) = []
  /\ translationResult_innerHTML (page w) = []
  /\ chatResult_innerHTML (page w) = []
  /\ events w =
       [PreventDefault; Fetch (request_of p); ReadJson;
        ConsoleError (lit "Error:") (Error (lit "bad input"))].
Proof.
  apply (top_level_error_fails_the_request
           (Sample.answers 200 (Normal Sample.bad_input))
           (Sample.idle_page Sample.hello)
           {| status := 200; json := Normal Sample.bad_input |}
           Sample.bad_input (lit "bad input")).
  - reflexivity.
  - reflexivity.
  - reflexivity.
  - reflexivity.
  - exists (Str (lit "bad input")). repeat split; reflexivity.
Defined.

(** C1 as stated fails: for the envelope [{"error": "bad input"}] the banner
    does not show "bad input". *)
Lemma top_level_error_text_is_not_shown :
  let w := submit (Sample.answers 200 (Normal Sample.bad_input))
             (Sample.idle_page Sample.hello) in
  errorMessage_textContent (page w) <> lit "bad input"
  /\ errorMessage_textContent (page w) = generic_message.
Proof. split; [discriminate|reflexivity]. Qed.





(** C9. In a 200 envelope without a top-level error, a missing slot ends the
    handling with the generic message in the banner and the results region
    hidden; the regions of the slots rendered before the missing one keep
    what was just written, the others keep what they had. *)
Theorem absent_slot_fails_the_request
    (net : Network) (p : Page) (r : Response) (data : value) :
  blank (text_value p) = false ->
  net (request_of p) = Normal r -> status r = 200 -> json r = Normal data ->
  succeeded data ->
  has data "sentiment" Undefined \/ has data "translation" Undefined
    \/ has data "chat" Undefined ->
  let w := submit net p in
  let caught :=
    [PreventDefault; Fetch (request_of p); ReadJson;
     ConsoleError (lit "Error:") TypeError] in
  errorMessage_textContent (page w) =
    lit "An error occurred while processing your request. Please try again."
  /\ error_display (page w) = lit "block"
  /\ results_display (page w) = lit "none"
  /\ (has data "sentiment" Undefined ->
        events w = caught
        /\ sentimentResult_innerHTML (page w) = sentimentResult_innerHTML p
        /\ translationResult_innerHTML (page w) = translationResult_innerHTML p
        /\ chatResult_innerHTML (page w) = chatResult_innerHTML p)
  /\ (forall h1,
        sentimentHtml data = Normal h1 -> has data "translation" Undefined ->
        events w = caught
        /\ sentimentResult_innerHTML (page w) = h1
        /\ translationResult_innerHTML (page w) = translationResult_innerHTML p
        /\ chatResult_innerHTML (page w) = chatResult_innerHTML p)
  /\ (forall h1 v2 h2,
        sentimentHtml data = Normal h1 ->
        translationHtml data = Normal v2 -> markup_of v2 = Normal h2 ->
        has data "chat" Undefined ->
        events w = caught
        /\ sentimentResult_innerHTML (page w) = h1
        /\ translationResult_innerHTML (page w) = h2
        /\ chatResult_innerHTML (page w) = chatResult_innerHTML p).
Proof.
  intros Hb Hn Hs Hj Hok Habs. cbv zeta.
  rewrite (submit_parsed net p r data Hb Hn Hs Hj). cbv zeta.
  set (w0 := {| page := loading p;
                events := [PreventDefault; Fetch (request_of p); ReadJson] |}).
  split; [|split; [|split; [|split; [|split]]]].
  1-3: destruct (display_results_absent data w0 Hok Habs) as (e & w' & -> & _);
       reflexivity.
  - intros H. destruct Hok as (c & Hc & Ht).
    rewrite (display_sentiment_throws data w0 c TypeError Hc Ht
               (sentimentHtml_absent data H)).
    repeat split; reflexivity.
  - intros h1 E1 H. destruct Hok as (c & Hc & Ht).
    rewrite (display_translation_throws data w0 c h1 TypeError Hc Ht E1).
    + repeat split; reflexivity.
    + rewrite (translationHtml_absent data H). reflexivity.
  - intros h1 v2 h2 E1 E2 M2 H. destruct Hok as (c & Hc & Ht).
    rewrite (display_chat_throws data w0 c h1 h2 v2 TypeError Hc Ht E1 E2 M2).
    + repeat split; reflexivity.
    + rewrite (chatHtml_absent data H). reflexivity.
Qed.

Lemma absent_slot_fails_the_request_witness :
  let w := submit (Sample.answers 200 (Normal Sample.no_translation))
             (Sample.idle_page Sample.hello) in
  errorMessage_textContent (page w) =
    lit "An error occurred while processing your request. Please try again."
  /\ error_display (page w) = lit "block"
  /\ results_display (page w) = lit "none"
  /\ events w =
       [PreventDefault; Fetch (request_of (Sample.idle_page Sample.hello));
        ReadJson; ConsoleError (lit "Error:") TypeError]
  /\ sentimentResult_innerHTML (page w) = lit "Sentiment: POSITIVE (Score: 0.75)"
  /\ translationResult_innerHTML (page w) = []
  /\ chatResult_innerHTML (page w) = [].
Proof.
  pose proof (absent_slot_fails_the_request
                (Sample.answers 200 (Normal Sample.no_translation))
                (Sample.idle_page Sample.hello)
                {| status := 200; json := Normal Sample.no_translation |}
                Sample.no_translation
                eq_refl eq_refl eq_refl eq_refl) as H.
  cbv zeta in H.
  specialize (H ltac:(exists Undefined; split; reflexivity)
                ltac:(right; left; reflexivity)).
  destruct H as (H1 & H2 & H3 & _ & H4 & _).
  destruct (H4 (lit "Sentiment: POSITIVE (Score: 0.75)") eq_refl eq_refl)
    as (H5 & H6 & H7 & H8).
  exact (conj H1 (conj H2 (conj H3 (conj H5 (conj H6 (conj H7 H8)))))).
Defined.

(** * Further properties of the handler *)

(** ** What the body of the [try] leaves alone, and what it logs *)

Lemma display_results_inputs (data : value) (w : World) :
  let r := display_results data w in
  text_value (page (snd r)) = text_value (page w)
  /\ sourceLang_value (page (snd r)) = sourceLang_value (page w)
  /\ targetLang_value (page (snd r)) = targetLang_value (page w)
  /\ submit_disabled (page (snd r)) = submit_disabled (page w).
Proof.
  unfold display_results, assign_innerHTML.
  split_cases; cbn; repeat split; reflexivity.
Qed.

Lemma request_processing_inputs (net : Network) (tx sl tl : jsstring) (w : World) :
  let r := request_processing net tx sl tl w in
  text_value (page (snd r)) = text_value (page w)
  /\ sourceLang_value (page (snd r)) = sourceLang_value (page w)
  /\ targetLang_value (page (snd r)) = targetLang_value (page w)
  /\ submit_disabled (page (snd r)) = submit_disabled (page w).
Proof.
  unfold request_processing.
  cbn -[lit decimal display_results].
  destruct (net _) as [r|e]; [|cbn; repeat split; reflexivity].
  destruct (ok r); cbn -[lit decimal display_results];
    [|repeat split; reflexivity].
  destruct (json r) as [data|e]; [|cbn; repeat split; reflexivity].
  exact (display_results_inputs data {| page := page w; events := _ |}).
Qed.

Lemma display_results_trace (data : value) (w : World) :
  let r := display_results data w in
  events (snd r) = events w
  \/ (fst r = Normal tt
      /\ exists v, events (snd r) = events w ++ [ConsoleLog (lit "Performance:") v]).
Proof.
  unfold display_results, assign_innerHTML.
  split_cases; cbn -[lit]; first [left; reflexivity | right; eauto].
Qed.

Lemma request_processing_trace (net : Network) (tx sl tl : jsstring) (w : World) :
  let r := request_processing net tx sl tl w in
  exists tail,
    events (snd r) = events w ++ Fetch (analyze_request tx sl tl) :: tail
    /\ match fst r with
       | Normal _ =>
           tail = [ReadJson]
           \/ exists v, tail = [ReadJson; ConsoleLog (lit "Performance:") v]
       | Throw _ => tail = [] \/ tail = [ReadJson]
       end.
Proof.
  unfold request_processing.
  cbn -[lit decimal display_results].
  destruct (net _) as [r|e]; [|cbn; exists []; split; [reflexivity|left; reflexivity]].
  destruct (ok r); cbn -[lit decimal display_results];
    [|exists []; split; [reflexivity|left; reflexivity]].
  destruct (json r) as [data|e].
  2:{ cbn. exists [ReadJson]. rewrite <- app_assoc. split; [reflexivity|].
      right. reflexivity. }
  cbn -[lit decimal display_results].
  set (w0 := {| page := page w; events := _ |}).
  destruct (display_results_trace data w0) as [H|(Hn & v & H)].
  - exists [ReadJson]. rewrite H. subst w0. cbn -[lit]. rewrite <- app_assoc.
    split; [reflexivity|]. destruct (fst _); [left|right]; reflexivity.
  - exists [ReadJson; ConsoleLog (lit "Performance:") v].
    rewrite H, Hn. subst w0. cbn -[lit]. rewrite <- !app_assoc.
    split; [reflexivity|]. right. eauto.
Qed.

(** ** The request *)

(** X1. A submission whose text is not blank sends exactly one request: a
    POST to /analyze announcing JSON, whose body holds the text as typed (not
    trimmed) and the two selected languages. *)
Theorem one_request_with_the_fields_as_typed (net : Network) (p : Page) :
  blank (text_value p) = false ->
  exists r,
    filter is_fetch (events (submit net p)) = [Fetch r]
    /\ url r = lit "/analyze"
    /\ method r = lit "POST"
    /\ content_type r = lit "application/json"
    /\ text (body r) = text_value p
    /\ source_lang (body r) = sourceLang_value p
    /\ target_lang (body r) = targetLang_value p.
Proof.
  intros Hb. exists (request_of p). split; [|repeat split; reflexivity].
  rewrite submit_sends by exact Hb. cbv zeta.
  destruct (request_processing_trace net (text_value p) (sourceLang_value p)
              (targetLang_value p)
              {| page := loading p; events := [PreventDefault] |})
    as (tail & He & Ht).
  destruct (request_processing _ _ _ _ _) as [[[]|e] w']; cbn -[lit] in *;
    rewrite He; cbn -[lit].
  - destruct Ht as [->|[v ->]]; reflexivity.
  - destruct Ht as [->| ->]; reflexivity.
Qed.

Lemma one_request_with_the_fields_as_typed_witness :
  exists r,
    filter is_fetch
      (events (submit Sample.offline (Sample.idle_page (lit " hello ")))) = [Fetch r]
    /\ url r = lit "/analyze"
    /\ method r = lit "POST"
    /\ content_type r = lit "application/json"
    /\ text (body r) = lit " hello "
    /\ source_lang (body r) = lit "en"
    /\ target_lang (body r) = lit "fr".
Proof.
  apply (one_request_with_the_fields_as_typed Sample.offline
           (Sample.idle_page (lit " hello "))).
  reflexivity.
Defined.

(** X2. The events of one submission: nothing but [preventDefault] for blank
    text; otherwise the request, followed by one of four endings. The body is
    read at most once and only after the request, and the console gets an
    error or the performance data, never both. *)
Theorem events_of_a_submission (net : Network) (p : Page) :
  (blank (text_value p) = true /\ events (submit net p) = [PreventDefault])
  \/ (blank (text_value p) = false
      /\ exists tail,
           events (submit net p) = PreventDefault :: Fetch (request_of p) :: tail
           /\ after_fetch tail).
Proof.
  destruct (blank (text_value p)) eqn:Hb.
  - left. rewrite submit_blank by exact Hb. split; reflexivity.
  - right. split; [reflexivity|].
    rewrite submit_sends by exact Hb. cbv zeta.
    destruct (request_processing_trace net (text_value p) (sourceLang_value p)
                (targetLang_value p)
                {| page := loading p; events := [PreventDefault] |})
      as (tail & He & Ht).
    destruct (request_processing _ _ _ _ _) as [[[]|e] w']; cbn -[lit] in *;
      rewrite He; cbn -[lit].
    + exists tail. split; [reflexivity|].
      destruct Ht as [->|[v ->]]; constructor.
    + exists (tail ++ [ConsoleError (lit "Error:") e]). split; [reflexivity|].
      destruct Ht as [->| ->]; constructor.
Qed.

Lemma submit_inputs (net : Network) (p : Page) :
  text_value (page (submit net p)) = text_value p
  /\ sourceLang_value (page (submit net p)) = sourceLang_value p
  /\ targetLang_value (page (submit net p)) = targetLang_value p.
Proof.
  destruct (blank (text_value p)) eqn:Hb.
  - rewrite submit_blank by exact Hb. repeat split; reflexivity.
  - rewrite submit_sends by exact Hb. cbv zeta.
    destruct (request_processing_inputs net (text_value p) (sourceLang_value p)
                (targetLang_value p)
                {| page := loading p; events := [PreventDefault] |})
      as (H1 & H2 & H3 & _).
    destruct (request_processing _ _ _ _ _) as [[[]|e] w']; cbn in *;
      repeat split; assumption.
Qed.

(** X4. The handler never writes to the fields it reads: the text and the
    two language selections are as they were. *)
Theorem inputs_are_left_alone (net : Network) (p : Page) :
  text_value (page (submit net p)) = text_value p
  /\ sourceLang_value (page (submit net p)) = sourceLang_value p
  /\ targetLang_value (page (submit net p)) = targetLang_value p.
Proof.
  exact (submit_inputs net p).
Qed.

(** X5. The banner only ever carries one of the two fixed messages: when it
    is shown, its text is the message for blank text or the generic one; when
    it is hidden, its text is whatever it was. *)
Theorem banner_text_is_fixed (net : Network) (p : Page) :
  let w := submit net p in
  (error_display (page w) = lit "block"
   /\ (errorMessage_textContent (page w) = lit "Please enter some text to analyze."
       \/ errorMessage_textContent (page w) =
            lit "An error occurred while processing your request. Please try again."))
  \/ (error_display (page w) = lit "none"
      /\ errorMessage_textContent (page w) = errorMessage_textContent p).
Proof.
  cbv zeta. destruct (blank (text_value p)) eqn:Hb.
  - rewrite submit_blank by exact Hb. left. split; [reflexivity|left; reflexivity].
  - rewrite submit_sends by exact Hb. cbv zeta.
    destruct (request_processing_frame net (text_value p) (sourceLang_value p)
                (targetLang_value p)
                {| page := loading p; events := [PreventDefault] |})
      as (He & Hm & _).
    destruct (request_processing _ _ _ _ _) as [[[]|e] w']; cbn -[lit] in *.
    + right. split; assumption.
    + left. split; [reflexivity|right; reflexivity].
Qed.

(** X6. Submitting again, with the server answering as before, leaves the
    page as the first submission left it. *)
Theorem resubmission_changes_nothing (net : Network) (p : Page) :
  page (submit net (page (submit net p))) = page (submit net p).
Proof.
  destruct (submit_inputs net p) as (H1 & H2 & H3).
  destruct (blank (text_value p)) eqn:Hb.
  - rewrite (submit_blank net (page (submit net p))) by (rewrite H1; exact Hb).
    rewrite submit_blank by exact Hb. reflexivity.
  - rewrite (submit_sends net (page (submit net p))) by (rewrite H1; exact Hb).
    cbv zeta. rewrite H1, H2, H3.
    rewrite submit_sends by exact Hb. cbv zeta.
    unfold request_processing, display_results, assign_innerHTML.
    split_cases; reflexivity.
Qed.

(** ** Failures before the envelope *)

(** X8. When the body of a 2xx response is not JSON, the body has been read,
    the exception goes to the console, the generic message is shown and no
    region of a slot is written. *)
Theorem unparsable_body_is_generic_failure
    (net : Network) (p : Page) (r : Response) (e : exn) :
  blank (text_value p) = false ->
  net (request_of p) = Normal r -> ok r = true -> json r = Throw e ->
  let w := submit net p in
  events w =
    [PreventDefault; Fetch (request_of p); ReadJson; ConsoleError (lit "Error:") e]
  /\ errorMessage_textContent (page w) =
       lit "An error occurred while processing your request. Please try again."
  /\ error_display (page w) = lit "block"
  /\ results_display (page w) = lit "none"
  /\ sentimentResult_innerHTML (page w) = sentimentResult_innerHTML p
  /\ translationResult_innerHTML (page w) = translationResult_innerHTML p
  /\ chatResult_innerHTML (page w) = chatResult_innerHTML p
  /\ submit_disabled (page w) = false.
Proof.
  intros Hb Hn Hok Hj. cbv zeta. rewrite submit_sends by exact Hb. cbv zeta.
  rewrite (processing_unparsed net _ _ _ _ r e Hn Hok Hj).
  cbn -[lit]. repeat split; reflexivity.
Qed.

Lemma unparsable_body_is_generic_failure_witness :
  let p := Sample.idle_page Sample.hello in
  let w := submit (Sample.answers 200 (Throw SyntaxError)) p in
  events w =
    [PreventDefault; Fetch (request_of p); ReadJson;
     ConsoleError (lit "Error:") SyntaxError]
  /\ errorMessage_textContent (page w) =
       lit "An error occurred while processing your request. Please try again."
  /\ error_display (page w) = lit "block"
  /\ results_display (page w) = lit "none"
  /\ sentimentResult_innerHTML (page w) = []
  /\ translationResult_innerHTML (page w) = []
  /\ chatResult_innerHTML (page w) = []
  /\ submit_disabled (page w) = false.
Proof.
  apply (unparsable_body_is_generic_failure
           (Sample.answers 200 (Throw SyntaxError))
           (Sample.idle_page Sample.hello)
           {| status := 200; json := Throw SyntaxError |} SyntaxError);
    reflexivity.
Defined.

(** X9. When the request is rejected, no body is read, the exception goes to
    the console, the generic message is shown and no region of a slot is
    written. *)
Theorem rejected_request_is_generic_failure
    (net : Network) (p : Page) (e : exn) :
  blank (text_value p) = false ->
  net (request_of p) = Throw e ->
  let w := submit net p in
  events w = [PreventDefault; Fetch (request_of p); ConsoleError (lit "Error:") e]
  /\ errorMessage_textContent (page w) =
       lit "An error occurred while processing your request. Please try again."
  /\ error_display (page w) = lit "block"
  /\ results_display (page w) = lit "none"
  /\ sentimentResult_innerHTML (page w) = sentimentResult_innerHTML p
  /\ translationResult_innerHTML (page w) = translationResult_innerHTML p
  /\ chatResult_innerHTML (page w) = chatResult_innerHTML p
  /\ submit_disabled (page w) = false.
Proof.
  intros Hb Hn. cbv zeta. rewrite submit_sends by exact Hb. cbv zeta.
  rewrite (processing_rejected net _ _ _ _ e Hn).
  cbn -[lit]. repeat split; reflexivity.
Qed.

Lemma rejected_request_is_generic_failure_witness :
  let p := Sample.idle_page Sample.hello in
  let w := submit Sample.offline p in
  events w =
    [PreventDefault; Fetch (request_of p); ConsoleError (lit "Error:") TypeError]
  /\ errorMessage_textContent (page w) =
       lit "An error occurred while processing your request. Please try again."
  /\ error_display (page w) = lit "block"
  /\ results_display (page w) = lit "none"
  /\ sentimentResult_innerHTML (page w) = []
  /\ translationResult_innerHTML (page w) = []
  /\ chatResult_innerHTML (page w) = []
  /\ submit_disabled (page w) = false.
Proof.
  apply (rejected_request_is_generic_failure Sample.offline
           (Sample.idle_page Sample.hello) TypeError);
    reflexivity.
Defined.

(** ** Envelopes off the contract *)

Lemma display_results_kept (data : value) (w : World) (c : value) (h1 : jsstring) :
  get data (lit "error") = Normal c -> truthy c = false ->
  sentimentHtml data = Normal h1 ->
  let r := display_results data w in
  sentimentResult_innerHTML (page (snd r)) = h1
  /\ forall v2 h2,
       translationHtml data = Normal v2 -> markup_of v2 = Normal h2 ->
       translationResult_innerHTML (page (snd r)) = h2.
Proof.
  intros H Ht Hs. cbv zeta. unfold display_results, assign_innerHTML.
  step. rewrite H, Ht. step. rewrite Hs. step.
  destruct (translationHtml data) as [v2|e2].
  2:{ step. split; [reflexivity|]. intros; discriminate. }
  step. destruct (markup_of v2) as [h2|e2] eqn:M2.
  2:{ step. split; [reflexivity|]. intros v h [= <-] M.
      rewrite M2 in M. discriminate M. }
  split.
  - split_cases; reflexivity.
  - intros v h [= <-] M. rewrite M2 in M. injection M as <-.
    split_cases; reflexivity.
Qed.

(** X17. A region that has been written is not rolled back: once the
    sentiment markup is computed it is what the sentiment region holds at the
    end, and likewise for the translation, whatever happens to the slots
    after them. *)
Theorem written_regions_are_kept
    (net : Network) (p : Page) (r : Response) (data : value) (h1 : jsstring) :
  blank (text_value p) = false ->
  net (request_of p) = Normal r -> status r = 200 -> json r = Normal data ->
  succeeded data ->
  sentimentHtml data = Normal h1 ->
  let w := submit net p in
  sentimentResult_innerHTML (page w) = h1
  /\ forall v2 h2,
       translationHtml data = Normal v2 -> markup_of v2 = Normal h2 ->
       translationResult_innerHTML (page w) = h2.
Proof.
  intros Hb Hn Hs Hj (c & Hc & Ht) H1. cbv zeta.
  rewrite (submit_parsed net p r data Hb Hn Hs Hj). cbv zeta.
  set (w0 := {| page := loading p; events := _ |}).
  destruct (display_results_kept data w0 c h1 Hc Ht H1) as (K1 & K2).
  split.
  - destruct (thrown_by _); cbn; exact K1.
  - intros v2 h2 E2 M2. specialize (K2 v2 h2 E2 M2).
    destruct (thrown_by _); cbn; exact K2.
Qed.

Lemma written_regions_are_kept_witness :
  let w := submit (Sample.answers 200 (Normal Edge.chat_null))
             (Sample.idle_page Sample.hello) in
  sentimentResult_innerHTML (page w) = lit "Sentiment: POSITIVE (Score: 0.75)"
  /\ translationResult_innerHTML (page w) = lit "bonjour"
  /\ results_display (page w) = lit "none".
Proof.
  pose proof (written_regions_are_kept
                (Sample.answers 200 (Normal Edge.chat_null))
                (Sample.idle_page Sample.hello)
                {| status := 200; json := Normal Edge.chat_null |}
                Edge.chat_null (lit "Sentiment: POSITIVE (Score: 0.75)")
                eq_refl eq_refl eq_refl eq_refl) as H.
  cbv zeta in H.
  specialize (H ltac:(exists Undefined; split; reflexivity) eq_refl).
  destruct H as (H1 & H2).
  split; [exact H1|]. split; [|reflexivity].
  exact (H2 (Str (lit "bonjour")) (lit "bonjour") eq_refl eq_refl).
Defined.

(** X10. An envelope that is not an object ([null], a number, a string, an
    array) ends in the generic message with the results region hidden and no
    region of a slot written; a [TypeError] goes to the console. *)
Theorem envelope_must_be_an_object
    (net : Network) (p : Page) (r : Response) (data : value) :
  blank (text_value p) = false ->
  net (request_of p) = Normal r -> status r = 200 -> json r = Normal data ->
  (forall properties, data <> Obj properties) ->
  let w := submit net p in
  events w =
    [PreventDefault; Fetch (request_of p); ReadJson;
     ConsoleError (lit "Error:") TypeError]
  /\ errorMessage_textContent (page w) =
       lit "An error occurred while processing your request. Please try again."
  /\ error_display (page w) = lit "block"
  /\ results_display (page w) = lit "none"
  /\ sentimentResult_innerHTML (page w) = sentimentResult_innerHTML p
  /\ translationResult_innerHTML (page w) = translationResult_innerHTML p
  /\ chatResult_innerHTML (page w) = chatResult_innerHTML p.
Proof.
  intros Hb Hn Hs Hj Hd. cbv zeta.
  rewrite (submit_parsed net p r data Hb Hn Hs Hj). cbv zeta.
  set (w0 := {| page := loading p; events := _ |}).
  assert (H : (get data (lit "error") = Throw TypeError)
              \/ (get data (lit "error") = Normal Undefined
                  /\ sentimentHtml data = Throw TypeError)).
  { destruct data; try (left; reflexivity); try (right; split; reflexivity).
    exfalso. exact (Hd _ eq_refl). }
  destruct H as [H|[H1 H2]].
  - rewrite (display_unreadable data w0 TypeError H).
    cbn -[lit]. repeat split; reflexivity.
  - rewrite (display_sentiment_throws data w0 Undefined TypeError H1 eq_refl H2).
    cbn -[lit]. repeat split; reflexivity.
Qed.

Lemma envelope_must_be_an_object_witness :
  let p := Sample.idle_page Sample.hello in
  let w := submit (Sample.answers 200 (Normal (Arr [Str (lit "ok")]))) p in
  events w =
    [PreventDefault; Fetch (request_of p); ReadJson;
     ConsoleError (lit "Error:") TypeError]
  /\ errorMessage_textContent (page w) =
       lit "An error occurred while processing your request. Please try again."
  /\ error_display (page w) = lit "block"
  /\ results_display (page w) = lit "none"
  /\ sentimentResult_innerHTML (page w) = []
  /\ translationResult_innerHTML (page w) = []
  /\ chatResult_innerHTML (page w) = [].
Proof.
  apply (envelope_must_be_an_object
           (Sample.answers 200 (Normal (Arr [Str (lit "ok")])))
           (Sample.idle_page Sample.hello)
           {| status := 200; json := Normal (Arr [Str (lit "ok")]) |}
           (Arr [Str (lit "ok")])); try reflexivity.
  intros properties. discriminate.
Defined.

(** X11. A sentiment slot without a truthy [error] whose score is not a
    number fails the whole request: [toFixed] is not there to call, the
    generic message is shown and no region of a slot is written. *)
Theorem score_must_be_a_number
    (net : Network) (p : Page) (r : Response) (data sentiment label score : value)
    (label_text : jsstring) :
  blank (text_value p) = false ->
  net (request_of p) = Normal r -> status r = 200 -> json r = Normal data ->
  succeeded data ->
  has data "sentiment" sentiment -> succeeded sentiment ->
  has sentiment "sentiment" label -> to_string label = Normal label_text ->
  has sentiment "score" score -> (forall x, score <> Num x) ->
  let w := submit net p in
  events w =
    [PreventDefault; Fetch (request_of p); ReadJson;
     ConsoleError (lit "Error:") TypeError]
  /\ errorMessage_textContent (page w) =
       lit "An error occurred while processing your request. Please try again."
  /\ error_display (page w) = lit "block"
  /\ results_display (page w) = lit "none"
  /\ sentimentResult_innerHTML (page w) = sentimentResult_innerHTML p
  /\ translationResult_innerHTML (page w) = translationResult_innerHTML p
  /\ chatResult_innerHTML (page w) = chatResult_innerHTML p.
Proof.
  intros Hb Hn Hs Hj (c & Hc & Ht) Hd (c1 & Hc1 & Ht1) Hl Hlt Hx Hnum. cbv zeta.
  rewrite (submit_parsed net p r data Hb Hn Hs Hj). cbv zeta.
  set (w0 := {| page := loading p; events := _ |}).
  assert (H : sentimentHtml data = Throw TypeError).
  { unfold sentimentHtml. slot_fields.
    destruct score; try reflexivity. exfalso. exact (Hnum _ eq_refl). }
  rewrite (display_sentiment_throws data w0 c TypeError Hc Ht H).
  cbn -[lit]. repeat split; reflexivity.
Qed.

Lemma score_must_be_a_number_witness :
  let p := Sample.idle_page Sample.hello in
  let w := submit (Sample.answers 200 (Normal Edge.no_score)) p in
  events w =
    [PreventDefault; Fetch (request_of p); ReadJson;
     ConsoleError (lit "Error:") TypeError]
  /\ errorMessage_textContent (page w) =
       lit "An error occurred while processing your request. Please try again."
  /\ error_display (page w) = lit "block"
  /\ results_display (page w) = lit "none"
  /\ sentimentResult_innerHTML (page w) = []
  /\ translationResult_innerHTML (page w) = []
  /\ chatResult_innerHTML (page w) = [].
Proof.
  pose proof (score_must_be_a_number
                (Sample.answers 200 (Normal Edge.no_score))
                (Sample.idle_page Sample.hello)
                {| status := 200; json := Normal Edge.no_score |}
                Edge.no_score
                (Obj [Sample.field "sentiment" (Str (lit "POSITIVE"))])
                (Str (lit "POSITIVE")) Undefined (lit "POSITIVE")
                eq_refl eq_refl eq_refl eq_refl) as H.
  cbv zeta in H.
  specialize (H ltac:(exists Undefined; split; reflexivity) eq_refl
                ltac:(exists Undefined; split; reflexivity)
                eq_refl eq_refl eq_refl ltac:(intros x; discriminate)).
  exact H.
Defined.

Lemma sentimentHtml_null (data : value) :
  has data "sentiment" Null -> sentimentHtml data = Throw TypeError.
Proof.
  intros H. unfold sentimentHtml. rewrite (path_slot _ _ _ _ H). reflexivity.
Qed.

Lemma translationHtml_null (data : value) :
  has data "translation" Null -> translationHtml data = Throw TypeError.
Proof.
  intros H. unfold translationHtml. rewrite (path_slot _ _ _ _ H). reflexivity.
Qed.

Lemma chatHtml_null (data : value) :
  has data "chat" Null -> chatHtml data = Throw TypeError.
Proof.
  intros H. unfold chatHtml. rewrite (path_slot _ _ _ _ H). reflexivity.
Qed.

(** X14. A slot that is [null] fails the whole request like a missing one:
    the generic message is shown, the results region is hidden and the submit
    control is enabled again. *)
Theorem null_slot_fails_the_request
    (net : Network) (p : Page) (r : Response) (data : value) :
  blank (text_value p) = false ->
  net (request_of p) = Normal r -> status r = 200 -> json r = Normal data ->
  succeeded data ->
  has data "sentiment" Null \/ has data "translation" Null \/ has data "chat" Null ->
  let w := submit net p in
  errorMessage_textContent (page w) =
    lit "An error occurred while processing your request. Please try again."
  /\ error_display (page w) = lit "block"
  /\ results_display (page w) = lit "none"
  /\ submit_disabled (page w) = false.
Proof.
  intros Hb Hn Hs Hj (c & Hc & Ht) Hnull. cbv zeta.
  rewrite (submit_parsed net p r data Hb Hn Hs Hj). cbv zeta.
  set (w0 := {| page := loading p; events := _ |}).
  assert (H : exists e w', display_results data w0 = (Throw e, w')).
  { destruct (sentimentHtml data) as [h1|e1] eqn:E1.
    2:{ eexists _, _. apply (display_sentiment_throws _ _ c e1); assumption. }
    destruct (translationHtml data) as [v2|e2] eqn:E2.
    2:{ eexists _, _. apply (display_translation_throws _ _ c h1 e2); try assumption.
        rewrite E2. reflexivity. }
    destruct (markup_of v2) as [h2|e2] eqn:M2.
    2:{ eexists _, _. apply (display_translation_throws _ _ c h1 e2); try assumption.
        rewrite E2. exact M2. }
    destruct (chatHtml data) as [v3|e3] eqn:E3.
    2:{ eexists _, _. apply (display_chat_throws _ _ c h1 h2 v2 e3); try assumption.
        rewrite E3. reflexivity. }
    destruct Hnull as [H|[H|H]].
    - rewrite (sentimentHtml_null _ H) in E1. discriminate.
    - rewrite (translationHtml_null _ H) in E2. discriminate.
    - rewrite (chatHtml_null _ H) in E3. discriminate. }
  destruct H as (e & w' & ->). cbn -[lit]. repeat split; reflexivity.
Qed.

Lemma null_slot_fails_the_request_witness :
  let w := submit (Sample.answers 200 (Normal Edge.chat_null))
             (Sample.idle_page Sample.hello) in
  errorMessage_textContent (page w) =
    lit "An error occurred while processing your request. Please try again."
  /\ error_display (page w) = lit "block"
  /\ results_display (page w) = lit "none"
  /\ submit_disabled (page w) = false.
Proof.
  apply (null_slot_fails_the_request
           (Sample.answers 200 (Normal Edge.chat_null))
           (Sample.idle_page Sample.hello)
           {| status := 200; json := Normal Edge.chat_null |} Edge.chat_null);
    try reflexivity.
  - exists Undefined. split; reflexivity.
  - right. right. reflexivity.
Defined.

(** X12. A translation slot that succeeded but has no [text] shows the word
    "undefined" in its region; with a [null] text the region is emptied. *)
Theorem missing_text_shows_undefined
    (net : Network) (p : Page) (r : Response) (data translation : value)
    (h1 : jsstring) :
  blank (text_value p) = false ->
  net (request_of p) = Normal r -> status r = 200 -> json r = Normal data ->
  succeeded data ->
  sentimentHtml data = Normal h1 ->
  has data "translation" translation -> succeeded translation ->
  let w := submit net p in
  (has translation "text" Undefined ->
     translationResult_innerHTML (page w) = lit "undefined")
  /\ (has translation "text" Null -> translationResult_innerHTML (page w) = []).
Proof.
  intros Hb Hn Hs Hj (c & Hc & Ht) H1 Hd (c2 & Hc2 & Ht2). cbv zeta.
  rewrite (submit_parsed net p r data Hb Hn Hs Hj). cbv zeta.
  set (w0 := {| page := loading p; events := _ |}).
  destruct (display_results_kept data w0 c h1 Hc Ht H1) as (_ & K).
  split; intros Hx.
  - assert (E : translationHtml data = Normal Undefined).
    { unfold translationHtml. slot_fields. reflexivity. }
    specialize (K Undefined (lit "undefined") E eq_refl).
    destruct (thrown_by _); cbn -[lit]; exact K.
  - assert (E : translationHtml data = Normal Null).
    { unfold translationHtml. slot_fields. reflexivity. }
    specialize (K Null [] E eq_refl).
    destruct (thrown_by _); cbn -[lit]; exact K.
Qed.

Lemma missing_text_shows_undefined_witness :
  translationResult_innerHTML
    (page (submit (Sample.answers 200 (Normal Edge.no_text))
             (Sample.idle_page Sample.hello))) = lit "undefined".
Proof.
  pose proof (missing_text_shows_undefined
                (Sample.answers 200 (Normal Edge.no_text))
                (Sample.idle_page Sample.hello)
                {| status := 200; json := Normal Edge.no_text |}
                Edge.no_text (Obj []) (lit "Sentiment: POSITIVE (Score: 0.75)")
                eq_refl eq_refl eq_refl eq_refl) as H.
  cbv zeta in H.
  specialize (H ltac:(exists Undefined; split; reflexivity) eq_refl eq_refl
                ltac:(exists Undefined; split; reflexivity)).
  destruct H as (H & _). exact (H eq_refl).
Defined.

(** ** The performance data *)

Lemma display_all_events (data : value) (w : World) (c perf : value)
    (h1 h2 h3 : jsstring) (v2 v3 : value) :
  get data (lit "error") = Normal c -> truthy c = false ->
  sentimentHtml data = Normal h1 ->
  translationHtml data = Normal v2 -> markup_of v2 = Normal h2 ->
  chatHtml data = Normal v3 -> markup_of v3 = Normal h3 ->
  get data (lit "performance") = Normal perf ->
  events (snd (display_results data w)) =
    events w ++ (if truthy perf then [ConsoleLog (lit "Performance:") perf] else []).
Proof.
  intros H Ht Hs Hv Hm Hc Hn Hp. unfold display_results.
  step. rewrite H, Ht. step. rewrite Hs. step. rewrite Hv. step. rewrite Hm. step.
  rewrite Hc. step. rewrite Hn. step. rewrite Hp. step.
  destruct (truthy perf); cbn; [reflexivity|].
  rewrite app_nil_r. reflexivity.
Qed.

(** X7. When the three slots are displayed, the [performance] field of the
    envelope goes to the console if it is truthy and nowhere otherwise; the
    regions do not depend on it. *)
Theorem performance_goes_to_the_console_only
    (net : Network) (p : Page) (r : Response) (data perf : value)
    (sentiment translation chat : value) (h1 h2 h3 : jsstring) :
  blank (text_value p) = false ->
  net (request_of p) = Normal r -> status r = 200 -> json r = Normal data ->
  succeeded data ->
  has data "sentiment" sentiment -> has data "translation" translation ->
  has data "chat" chat ->
  shows_sentiment sentiment h1 -> shows_translation translation h2 ->
  shows_chat chat h3 ->
  has data "performance" perf ->
  let w := submit net p in
  events w =
    [PreventDefault; Fetch (request_of p); ReadJson]
      ++ (if truthy perf then [ConsoleLog (lit "Performance:") perf] else [])
  /\ sentimentResult_innerHTML (page w) = h1
  /\ translationResult_innerHTML (page w) = h2
  /\ chatResult_innerHTML (page w) = h3.
Proof.
  intros Hb Hn Hs Hj (c & Hc & Ht) Hd1 Hd2 Hd3 S1 S2 S3 Hp.
  pose proof (sentimentHtml_shows data sentiment h1 Hd1 S1) as E1.
  pose proof (translationHtml_shows data translation h2 Hd2 S2) as E2.
  pose proof (chatHtml_shows data chat h3 Hd3 S3) as E3.
  cbv zeta. rewrite (submit_parsed net p r data Hb Hn Hs Hj). cbv zeta.
  set (w0 := {| page := loading p; events := _ |}).
  pose proof (display_all_events data w0 c perf h1 h2 h3 (Str h2) (Str h3)
                Hc Ht E1 E2 eq_refl E3 eq_refl Hp) as Hev.
  destruct (display_all data w0 c h1 h2 h3 (Str h2) (Str h3)
              Hc Ht E1 E2 eq_refl E3 eq_refl) as (log & Hd & _).
  rewrite Hd in Hev |- *. cbn -[lit] in Hev |- *.
  split; [exact Hev|]. repeat split; reflexivity.
Qed.

Lemma performance_goes_to_the_console_only_witness :
  let p := Sample.idle_page Sample.hello in
  let w := submit (Sample.answers 200 (Normal Edge.timed)) p in
  events w =
    [PreventDefault; Fetch (request_of p); ReadJson;
     ConsoleLog (lit "Performance:")
       (Obj [Sample.field "total" (Num Sample.three_quarters)])]
  /\ sentimentResult_innerHTML (page w) = lit "Sentiment: POSITIVE (Score: 0.75)"
  /\ translationResult_innerHTML (page w) = lit "bonjour"
  /\ chatResult_innerHTML (page w) = lit "Hi there".
Proof.
  pose proof (performance_goes_to_the_console_only
                (Sample.answers 200 (Normal Edge.timed))
                (Sample.idle_page Sample.hello)
                {| status := 200; json := Normal Edge.timed |}
                Edge.timed
                (Obj [Sample.field "total" (Num Sample.three_quarters)])
                Sample.sentiment_ok Sample.translation_ok Sample.chat_ok
                (sentiment_content (lit "POSITIVE") Sample.three_quarters)
                (lit "bonjour") (lit "Hi there")
                eq_refl eq_refl eq_refl eq_refl) as H.
  cbv zeta in H.
  specialize (H ltac:(exists Undefined; split; reflexivity)
                eq_refl eq_refl eq_refl).
  specialize (H ltac:(apply sentiment_succeeded;
                      [exists Undefined; split; reflexivity
                      |reflexivity|reflexivity])).
  specialize (H ltac:(apply translation_succeeded;
                      [exists Undefined; split; reflexivity|reflexivity])).
  specialize (H ltac:(apply chat_succeeded;
                      [exists Undefined; split; reflexivity|reflexivity])).
  exact (H eq_refl).
Defined.

(** ** The score *)

Lemma string_of_uint_digits (d : Decimal.uint) :
  forallb is_digit (lit (DecimalString.NilEmpty.string_of_uint d)) = true.
Proof.
  induction d; cbn; auto.
Qed.

Lemma decimal_digits (n : N) : forallb is_digit (decimal n) = true.
Proof.
  unfold decimal, DecimalString.NilZero.string_of_uint.
  destruct (N.to_uint n); try apply string_of_uint_digits. reflexivity.
Qed.

(** ** A refused submission *)

(** X16. A submission refused for its blank text hides the results region,
    so results of an earlier submission are no longer shown; their markup,
    and the submit control, are left as they were. *)
Theorem refused_submission_hides_earlier_results (net : Network) (p : Page) :
  blank (text_value p) = true ->
  let w := submit net p in
  results_display (page w) = lit "none"
  /\ sentimentResult_innerHTML (page w) = sentimentResult_innerHTML p
  /\ translationResult_innerHTML (page w) = translationResult_innerHTML p
  /\ chatResult_innerHTML (page w) = chatResult_innerHTML p
  /\ submit_disabled (page w) = submit_disabled p.
Proof.
  intros Hb. cbv zeta. rewrite submit_blank by exact Hb.
  repeat split; reflexivity.
Qed.

Lemma refused_submission_hides_earlier_results_witness :
  let w := submit Sample.offline Edge.results_shown in
  results_display (page w) = lit "none"
  /\ sentimentResult_innerHTML (page w) = lit "Sentiment: POSITIVE (Score: 0.75)"
  /\ translationResult_innerHTML (page w) = lit "bonjour"
  /\ chatResult_innerHTML (page w) = lit "Hi there"
  /\ submit_disabled (page w) = false.
Proof.
  apply (refused_submission_hides_earlier_results Sample.offline Edge.results_shown).
  reflexivity.
Defined.

(** * The listener and its awaits *)

(** The handler of the statements above is the listener whose two promises
    settle with nothing run in between. *)
Lemma uninterrupted_is_submit_handler (net : Network) (w : World) :
  uninterrupted net w = submit_handler net w.
Proof.
  unfold uninterrupted, submit_handler, until_fetch.
  cbn -[truthy trim when_fetch_settles when_json_settles request_processing
        try_catch_finally showError lit].
  destruct (negb (truthy (Str (trim (text_value (page w)))))).
  - cbn. reflexivity.
  - cbn -[when_json_settles request_processing display_results lit decimal].
    unfold request_processing, when_fetch_settles, when_json_settles,
      try_catch_finally.
    cbn -[display_results lit decimal].
    destruct (net _) as [r|e]; [|reflexivity].
    cbn -[display_results lit decimal].
    destruct (ok r); cbn -[display_results lit decimal]; [|reflexivity].
    destruct (json r) as [data|e]; cbn -[display_results lit decimal];
      [|reflexivity].
    destruct (display_results data _) as [[[]|e] w']; reflexivity.
Qed.

Lemma handled_alone_is_submit (net : Network) (p : Page) :
  handled_alone net p = submit net p.
Proof.
  unfold handled_alone, submit. rewrite uninterrupted_is_submit_handler.
  reflexivity.
Qed.

(** ** Numerals *)

Lemma digits_value_uint (d : Decimal.uint) (acc : positive) :
  fold_left (fun a c => (10 * a + (Z.of_N c - 48))%Z)
    (lit (DecimalString.NilEmpty.string_of_uint d)) (Zpos acc)
  = Zpos (Pos.of_uint_acc d acc).
Proof.
  revert acc. induction d; intros acc; cbn [DecimalString.NilEmpty.string_of_uint
    Pos.of_uint_acc]; [reflexivity|..];
    change (lit (String.String ?c ?r)) with (Ascii.N_of_ascii c :: lit r);
    cbn [fold_left]; rewrite <- IHd; f_equal;
    match goal with
    | |- context [Ascii.N_of_ascii ?c] =>
        let v := eval vm_compute in (Ascii.N_of_ascii c) in
        change (Ascii.N_of_ascii c) with v
    end;
    lia.
Qed.

Lemma digits_value_of_uint (d : Decimal.uint) :
  digits_value (lit (DecimalString.NilEmpty.string_of_uint d)) = Z.of_N (N.of_uint d).
Proof.
  unfold digits_value.
  induction d; cbn [DecimalString.NilEmpty.string_of_uint]; [reflexivity|..];
    change (lit (String.String ?c ?r)) with (Ascii.N_of_ascii c :: lit r);
    cbn [fold_left];
    first [exact IHd | apply (digits_value_uint d)].
Qed.

Lemma digits_value_decimal (n : N) : digits_value (decimal n) = Z.of_N n.
Proof.
  unfold decimal, DecimalString.NilZero.string_of_uint.
  rewrite <- (DecimalN.Unsigned.of_to n) at 2.
  destruct (N.to_uint n); try apply digits_value_of_uint. reflexivity.
Qed.

Lemma digits_value_zeros (k : nat) (s : jsstring) :
  digits_value (repeat 0x30 k ++ s) = digits_value s.
Proof.
  unfold digits_value. rewrite fold_left_app. f_equal.
  induction k; [reflexivity|exact IHk].
Qed.

Lemma fixed_layout_hundredths (n : Z) :
  (0 <= n)%Z ->
  exists whole frac,
    Number.fixed_layout n 2 = whole ++ lit "." ++ frac
    /\ whole <> []
    /\ forallb is_digit whole = true
    /\ forallb is_digit frac = true
    /\ length frac = 2%nat
    /\ digits_value (whole ++ frac) = n.
Proof.
  intros Hn. unfold Number.fixed_layout. cbv beta iota zeta.
  set (ds := if (n =? 0)%Z then lit "0" else _).
  set (ds' := if (length ds <=? 2)%nat then _ ++ ds else ds).
  assert (Hd : forallb is_digit ds = true).
  { subst ds. destruct (n =? 0)%Z; [reflexivity|apply decimal_digits]. }
  assert (Hv : digits_value ds = n).
  { subst ds. destruct (n =? 0)%Z eqn:E.
    - apply Z.eqb_eq in E. subst n. reflexivity.
    - rewrite digits_value_decimal. apply Z2N.id, Hn. }
  assert (Hd' : forallb is_digit ds' = true).
  { subst ds'. destruct (length ds <=? 2)%nat; [|exact Hd].
    rewrite forallb_app, Hd, andb_true_r.
    apply forallb_forall. intros c Hc. apply repeat_spec in Hc. subst c.
    reflexivity. }
  assert (Hv' : digits_value ds' = n).
  { subst ds'. destruct (length ds <=? 2)%nat; [|exact Hv].
    rewrite digits_value_zeros. exact Hv. }
  assert (Hk : (3 <= length ds')%nat).
  { subst ds'. destruct (length ds <=? 2)%nat eqn:E.
    - apply Nat.leb_le in E. rewrite length_app, repeat_length. lia.
    - apply Nat.leb_gt in E. lia. }
  exists (firstn (length ds' - 2) ds'), (skipn (length ds' - 2) ds').
  rewrite (firstn_skipn (length ds' - 2) ds').
  rewrite <- (firstn_skipn (length ds' - 2) ds'), forallb_app in Hd'.
  apply andb_true_iff in Hd' as [Hw Hf].
  repeat split; try assumption.
  - intros E. apply (f_equal (@length N)) in E.
    rewrite length_firstn in E. cbn in E. lia.
  - rewrite length_skipn. lia.
Qed.

Lemma magnitude_nonneg (m : positive) (e : Z) : (0 <= Number.magnitude m e)%Q.
Proof.
  unfold Number.magnitude, Number.pow.
  apply Qmult_le_0_compat; [discriminate|].
  apply Qpower_0_le. discriminate.
Qed.

Lemma fixed_integer_nearest (m : positive) (e : Z) :
  (0 <= Number.fixed_integer m e 2)%Z
  /\ nearest_hundredth (Number.magnitude m e) (Number.fixed_integer m e 2).
Proof.
  unfold Number.fixed_integer, nearest_hundredth.
  change (Number.pow 10 (Z.of_nat 2)) with (100 # 1)%Q.
  set (q := Number.magnitude m e).
  pose proof (magnitude_nonneg m e) as Hq. fold q in Hq.
  pose proof (Qfloor_le (q * (100 # 1) + (1 # 2))) as Hlo.
  pose proof (Qlt_floor (q * (100 # 1) + (1 # 2))) as Hhi.
  rewrite inject_Z_plus in Hhi.
  change (inject_Z 1) with 1%Q in Hhi.
  split.
  - change 0%Z with (Qfloor 0). apply Qfloor_resp_le. lra.
  - split; lra.
Qed.

(** What [toFixed(2)] writes for a number in the range of the fixed
    notation: a minus sign for a negative number, then the nearest number of
    hundredths with the point before its last two digits. *)
Lemma toFixed_nearest_hundredth (x : Number.number) :
  fixed_range x = true ->
  exists n whole frac,
    Number.toFixed x 2 =
      (if below_zero x then lit "-" else []) ++ whole ++ lit "." ++ frac
    /\ whole <> []
    /\ forallb is_digit whole = true
    /\ forallb is_digit frac = true
    /\ length frac = 2%nat
    /\ digits_value (whole ++ frac) = n
    /\ nearest_hundredth (magnitude_of x) n.
Proof.
  destruct x as [s|s| |s m e];
    cbn -[lit Number.fixed_layout Number.pow Number.fixed_integer Number.magnitude];
    try discriminate.
  - intros _.
    destruct (fixed_layout_hundredths 0 (Z.le_refl 0)) as (whole & frac & E & H).
    exists 0%Z, whole, frac. rewrite E. split; [reflexivity|].
    destruct H as (H1 & H2 & H3 & H4 & H5). repeat split; try assumption;
      vm_compute; solve [discriminate | reflexivity].
  - intros H. apply negb_true_iff in H. rewrite H.
    destruct (fixed_integer_nearest m e) as (Hn & Hnear).
    destruct (fixed_layout_hundredths _ Hn) as (whole & frac & E & H').
    exists (Number.fixed_integer m e 2), whole, frac. rewrite E.
    split; [reflexivity|].
    destruct H' as (H1 & H2 & H3 & H4 & H5). repeat split; try assumption;
      apply Hnear.
Qed.

(** * Claims that depend on the awaits and on the range of the score *)




(** C10, as the script has it. When a submission has been handled with
    nothing run in between, the error banner and the results region are not
    both visible: one of them is shown and the other hidden. *)
Theorem banner_and_results_not_both_visible_when_alone (net : Network) (p : Page) :
  let w := handled_alone net p in
  ~ (visible (error_display (page w)) /\ visible (results_display (page w)))
  /\ ((error_display (page w) = lit "block" /\ results_display (page w) = lit "none")
      \/ (error_display (page w) = lit "none"
          /\ results_display (page w) = lit "block")).
Proof.
  cbv zeta. rewrite handled_alone_is_submit.
  assert (H : (error_display (page (submit net p)) = lit "block"
               /\ results_display (page (submit net p)) = lit "none")
              \/ (error_display (page (submit net p)) = lit "none"
                  /\ results_display (page (submit net p)) = lit "block")).
  { destruct (blank (text_value p)) eqn:Hb.
    - rewrite submit_blank by exact Hb. left. split; reflexivity.
    - rewrite submit_sends by exact Hb. cbv zeta.
      destruct (request_processing_frame net (text_value p) (sourceLang_value p)
                  (targetLang_value p)
                  {| page := loading p; events := [PreventDefault] |})
        as (He & _ & Hr).
      destruct (request_processing _ _ _ _ _) as [[[]|e] w']; cbn -[lit] in *.
      + right. split; [exact He|apply Hr; reflexivity].
      + left. split; reflexivity. }
  split; [|exact H].
  unfold visible. intros [Hv1 Hv2].
  destruct H as [[_ H]|[H _]]; [apply Hv2, H|apply Hv1, H].
Qed.

(** C10 as stated fails: when a blank submission is handled while the request
    of another is pending, and that request then succeeds, the handling ends
    with the banner and the results region both visible. *)
Lemma overlapping_submissions_show_banner_and_results :
  let w := overlapped (Sample.idle_page Sample.hello) Sample.spaces
             {| status := 200; json := Normal Sample.all_ok |} in
  error_display (page w) = lit "block"
  /\ results_display (page w) = lit "block"
  /\ visible (error_display (page w)) /\ visible (results_display (page w)).
Proof.
  split; [reflexivity|]. split; [reflexivity|]. split; discriminate.
Qed.

(** * Further properties, between the awaits *)

(** X3. Whatever the request and the body settle to, the exception raised in
    the [try] is caught: each resumption of the listener completes normally,
    on every page. (The elements are taken to exist; a promise that never
    settles leaves the listener suspended.) *)
Theorem errors_of_the_request_are_caught :
  (forall settled w, exists suspended w',
      when_fetch_settles settled w = (Normal suspended, w'))
  /\ (forall settled w, exists w', when_json_settles settled w = (Normal tt, w')).
Proof.
  split; intros settled w.
  - unfold when_fetch_settles, try_catch_finally.
    cbn -[lit decimal].
    destruct settled as [r|e]; cbn -[lit decimal]; [|eauto].
    destruct (ok r); cbn -[lit decimal]; eauto.
  - unfold when_json_settles, try_catch_finally.
    cbn -[lit display_results].
    destruct settled as [data|e]; cbn -[lit display_results]; [|eauto].
    destruct (display_results data w) as [[[]|e] w']; cbn -[lit]; eauto.
Qed.

(** X13. For a sentiment slot that succeeded with a score that is zero or
    below 10^21 in magnitude, the sentiment region reads
    "Sentiment: <label> (Score: <digits>.<two digits>)", the digits being
    those of the number of hundredths nearest to the magnitude of the score,
    with a minus sign before them exactly when the score is negative. *)
Theorem score_is_written_with_two_decimals
    (net : Network) (p : Page) (r : Response) (data sentiment : value)
    (label : jsstring) (score : Number.number) :
  blank (text_value p) = false ->
  net (request_of p) = Normal r -> status r = 200 -> json r = Normal data ->
  succeeded data ->
  has data "sentiment" sentiment -> succeeded sentiment ->
  has sentiment "sentiment" (Str label) -> has sentiment "score" (Num score) ->
  fixed_range score = true ->
  exists n whole frac,
    sentimentResult_innerHTML (page (submit net p)) =
      lit "Sentiment: " ++ label ++ lit " (Score: "
        ++ ((if below_zero score then lit "-" else []) ++ whole ++ lit "." ++ frac)
        ++ lit ")"
    /\ whole <> []
    /\ forallb is_digit whole = true
    /\ forallb is_digit frac = true
    /\ length frac = 2%nat
    /\ digits_value (whole ++ frac) = n
    /\ nearest_hundredth (magnitude_of score) n.
Proof.
  intros Hb Hn Hs Hj (c & Hc & Ht) Hd Hok Hl Hx Hr.
  destruct (toFixed_nearest_hundredth score Hr) as (n & whole & frac & E & H).
  exists n, whole, frac. split; [|exact H].
  rewrite (submit_parsed net p r data Hb Hn Hs Hj). cbv zeta.
  set (w0 := {| page := loading p; events := _ |}).
  pose proof (sentimentHtml_shows data sentiment _ Hd
                (sentiment_succeeded sentiment label score Hok Hl Hx)) as E1.
  destruct (display_results_kept data w0 c _ Hc Ht E1) as (K & _).
  unfold sentiment_content in K. rewrite E in K.
  destruct (thrown_by _); cbn -[lit]; exact K.
Qed.

Lemma score_is_written_with_two_decimals_witness :
  exists n whole frac,
    sentimentResult_innerHTML
      (page (submit (Sample.answers 200 (Normal Sample.all_ok))
               (Sample.idle_page Sample.hello))) =
      lit "Sentiment: " ++ lit "POSITIVE" ++ lit " (Score: "
        ++ ((if below_zero Sample.three_quarters then lit "-" else [])
              ++ whole ++ lit "." ++ frac)
        ++ lit ")"
    /\ whole <> []
    /\ forallb is_digit whole = true
    /\ forallb is_digit frac = true
    /\ length frac = 2%nat
    /\ digits_value (whole ++ frac) = n
    /\ nearest_hundredth (magnitude_of Sample.three_quarters) n.
Proof.
  apply (score_is_written_with_two_decimals
           (Sample.answers 200 (Normal Sample.all_ok))
           (Sample.idle_page Sample.hello)
           {| status := 200; json := Normal Sample.all_ok |}
           Sample.all_ok Sample.sentiment_ok (lit "POSITIVE") Sample.three_quarters);
    try reflexivity.
  all: exists Undefined; split; reflexivity.
Defined.

(** X15. On text that is not blank the listener disables the submit control
    and hides the banner and the results before it is suspended on the
    request. A 2xx response leaves the page untouched while the body is
    awaited. The control is enabled again only where the listener ends: when
    the settled request makes it end, and after the body settles. *)
Theorem control_is_disabled_while_the_request_is_pending (w : World) :
  blank (text_value (page w)) = false ->
  (exists w1,
      until_fetch w = (Normal (Some (request_of (page w))), w1)
      /\ submit_disabled (page w1) = true
      /\ error_display (page w1) = lit "none"
      /\ results_display (page w1) = lit "none")
  /\ (forall response w',
        ok response = true ->
        when_fetch_settles (Normal response) w' =
          (Normal (Some response),
           {| page := page w'; events := events w' ++ [ReadJson] |}))
  /\ (forall settled w' w'',
        when_fetch_settles settled w' = (Normal None, w'') ->
        submit_disabled (page w'') = false)
  /\ (forall settled w',
        submit_disabled (page (snd (when_json_settles settled w'))) = false).
Proof.
  intros Hb. split; [|split; [|split]].
  - unfold until_fetch. cbn -[truthy trim lit].
    rewrite truthy_trim, Hb. cbn -[lit].
    eexists. split; [reflexivity|]. repeat split; reflexivity.
  - intros response w' Hok. unfold when_fetch_settles.
    cbn -[lit decimal]. rewrite Hok. reflexivity.
  - intros settled w' w''. unfold when_fetch_settles, try_catch_finally.
    cbn -[lit decimal].
    destruct settled as [r|e]; cbn -[lit decimal].
    + destruct (ok r); cbn -[lit decimal]; [discriminate|].
      intros [= <-]. reflexivity.
    + intros [= <-]. reflexivity.
  - intros settled w'. unfold when_json_settles, try_catch_finally.
    cbn -[lit display_results].
    destruct settled as [data|e]; cbn -[lit display_results]; [|reflexivity].
    destruct (display_results data w') as [[[]|e] w1]; reflexivity.
Qed.

Lemma control_is_disabled_while_the_request_is_pending_witness :
  let w := {| page := Sample.idle_page Sample.hello; events := [] |} in
  (exists w1,
      until_fetch w = (Normal (Some (request_of (page w))), w1)
      /\ submit_disabled (page w1) = true
      /\ error_display (page w1) = lit "none"
      /\ results_display (page w1) = lit "none")
  /\ (forall response w',
        ok response = true ->
        when_fetch_settles (Normal response) w' =
          (Normal (Some response),
           {| page := page w'; events := events w' ++ [ReadJson] |}))
  /\ (forall settled w' w'',
        when_fetch_settles settled w' = (Normal None, w'') ->
        submit_disabled (page w'') = false)
  /\ (forall settled w',
        submit_disabled (page (snd (when_json_settles settled w'))) = false).
Proof.
  apply (control_is_disabled_while_the_request_is_pending
           {| page := Sample.idle_page Sample.hello; events := [] |}).
  reflexivity.
Defined.
